(** * The journey loop of the AI mystery shopper (app.py)

    A shallow embedding of class [MysteryShopperAI]: its two Oracle
    wrappers [get_ai_decision] and [analyze_screenshot_ux], and the
    browse-act-observe loop [run_journey].

    Conventions of the embedding.
    - Python values parsed from the model's JSON answer are kept as [json]
      terms: the code never validates them, so a "decision" may be any
      JSON value, and subscripting or slicing it may raise.
    - Everything outside the class (Playwright, PIL, the Gemini client,
      the json parser, the clock) is a field of the record [Env].  Calls
      made inside the step loop take the step index as a time stamp, so
      the environment may answer differently at different steps; where a
      step makes the same call twice ([page.url], [Image.open]) the two
      calls are numbered 0 and 1.
    - The code threads the instance fields and raises and catches
      exceptions through many calls; this is the monad [M]: a state
      transformer whose outcome is a value, a raised exception, or one of
      the control transfers [return], [break], [continue].
    - [await] is sequential composition; [asyncio.sleep] has no effect on
      the modelled state and is left out.  The progress observer is a
      side channel: it is optional, its messages are logged in the trace,
      and the percentage argument (float arithmetic) is not modelled.  The
      observer itself is taken not to raise.
    - Every exception raised is an instance of [Exception] (no
      cancellation, no interrupt), so [except Exception] and the bare
      [except] catch the same things; the Playwright context manager is
      entered and left without error. *)

From Stdlib Require Import ZArith List String Bool Lia Sorted.
From stdpp Require Import base list pretty.
Import ListNotations.
Open Scope string_scope.
Open Scope Z_scope.
Set Warnings "-register-all".

(** ** Python values *)

Inductive json : Type :=
| JNull
| JBool (b : bool)
| JNum (n : Z)
| JStr (s : string)
| JArr (items : list json)
| JObj (fields : list (string * json)).

(** A raised exception; [str(e)] is its message. *)
Inductive exn : Type := Exn (msg : string).

Definition str_exn (e : exn) : string := let 'Exn m := e in m.

Inductive result (A : Type) : Type :=
| Ok (a : A)
| Err (e : exn).
Arguments Ok {A} a.
Arguments Err {A} e.

(** [s[:n]] on a string (a character is a byte here). *)
Definition str_prefix (n : nat) (s : string) : string := substring 0 n s.

Fixpoint assoc (k : string) (kv : list (string * json)) : option json :=
  match kv with
  | [] => None
  | (k', v) :: rest => if String.eqb k k' then Some v else assoc k rest
  end.

(** [d[k]] for a string key [k]: only a dict with that key answers.
    The fields of a parsed dict have distinct keys. *)
Definition getitem (d : json) (k : string) : result json :=
  match d with
  | JObj kv =>
      match assoc k kv with
      | Some v => Ok v
      | None => Err (Exn ("KeyError: " ++ k))
      end
  | _ => Err (Exn "TypeError: not subscriptable by str")
  end.

(** [v[:n]]: strings and lists slice, everything else raises. *)
Definition slice_to (n : nat) (v : json) : result json :=
  match v with
  | JStr s => Ok (JStr (str_prefix n s))
  | JArr l => Ok (JArr (firstn n l))
  | _ => Err (Exn "TypeError: not sliceable")
  end.

(** [v == "s"] for a string literal. *)
Definition eq_str (v : json) (s : string) : bool :=
  match v with
  | JStr t => String.eqb t s
  | _ => false
  end.

(** ** Instance state *)

(** An entry of [self.action_history]: the code appends
    [f"Clicked: {label}"]; the label is kept as the value formatted. *)
Inductive HistoryEntry : Type := Clicked (label : json).

(** The dict appended to [self.screenshots]. *)
Record StepRecord : Type := mkStepRecord {
  path : string;
  step : Z;
  url : string;
  decision : json;
  ux_analysis : json
}.

(** [MysteryShopperAI]: the two list fields set by [__init__]
    (the API client is part of the environment). *)
Record MysteryShopperAI : Type := mkShopper {
  screenshots : list StepRecord;
  action_history : list HistoryEntry
}.

(** [__init__]. *)
Definition init : MysteryShopperAI :=
  {| screenshots := []; action_history := [] |}.

(** ** The environment *)

(** The three locator calls of the click strategies. *)
Inductive locator : Type :=
| GetByText (text : json) (exact : bool)
| GetByRole (role : string) (name : json)
| LocatorText (text : json).

(** The two prompts, by their interpolated parts. *)
Inductive prompt : Type :=
| DecidePrompt (goal : string) (step : Z) (recent : list HistoryEntry)
| UxPrompt (page_context : string).

Inductive wait_until : Type := Commit | Default.

Record Env : Type := mkEnv {
  launch : result unit;
  new_context : result unit;
  new_page : result unit;
  goto : string -> wait_until -> result unit;
  now_hms : Z -> string;
  page_screenshot : Z -> string -> result unit;
  page_url : Z -> nat -> string;
  image_open : Z -> nat -> string -> result string;
  generate_content : Z -> prompt -> string -> result string;
  json_loads : string -> result json;
  element_click : Z -> locator -> result unit;
  page_evaluate_scroll : Z -> result unit;
  browser_close : result unit
}.

(** ** The Oracle wrappers *)

(** [history[-3:] if history else []]. *)
Definition last3 (history : list HistoryEntry) : list HistoryEntry :=
  skipn (length history - 3) history.

Definition bind_result {A B} (r : result A) (k : A -> result B) : result B :=
  match r with
  | Ok a => k a
  | Err e => Err e
  end.

(** [try: body except Exception as e: handler(e)] on pure results. *)
Definition try_result {A} (body : result A) (handler : exn -> result A)
  : result A :=
  match body with
  | Ok a => Ok a
  | Err e => handler e
  end.

Definition decision_default (e : exn) : json :=
  JObj [ ("action", JStr "finish");
         ("label", JStr "Analysis complete");
         ("value", JStr "");
         ("reason", JStr ("AI error: " ++ str_prefix 50 (str_exn e)));
         ("ux_observation", JStr "Error occurred") ].

Definition ux_default (e : exn) : json :=
  JObj [ ("page_type", JStr "unknown");
         ("ux_issues", JArr []);
         ("positive_aspects", JArr []);
         ("actionable_suggestions", JArr []);
         ("conversion_score", JNum 0);
         ("overall_assessment",
          JStr ("Analysis error: " ++ str_prefix 50 (str_exn e))) ].

(** The body of the [try] of [get_ai_decision] (app.py, lines 22-52):
    open the image, ask the model, parse the answer. *)
Definition decide_call (env : Env) (t : Z) (screenshot_path goal : string)
    (history : list HistoryEntry) (step : Z) : result json :=
  bind_result (image_open env t 0 screenshot_path) (fun raw_image =>
  bind_result (generate_content env t
                 (DecidePrompt goal step (last3 history)) raw_image)
    (fun response_text => json_loads env response_text)).

(** [get_ai_decision] (lines 19-60): the [try] body, and the default dict
    of the [except] branch.  [t] is the time of the call. *)
Definition get_ai_decision (env : Env) (t : Z) (screenshot_path goal : string)
    (history : list HistoryEntry) (step : Z) : result json :=
  try_result (decide_call env t screenshot_path goal history step)
             (fun e => Ok (decision_default e)).

(** The body of the [try] of [analyze_screenshot_ux] (lines 65-99). *)
Definition score_call (env : Env) (t : Z)
    (screenshot_path page_context : string) : result json :=
  bind_result (image_open env t 1 screenshot_path) (fun raw_image =>
  bind_result (generate_content env t (UxPrompt page_context) raw_image)
    (fun response_text => json_loads env response_text)).

(** [analyze_screenshot_ux] (lines 62-108). *)
Definition analyze_screenshot_ux (env : Env) (t : Z)
    (screenshot_path page_context : string) : result json :=
  try_result (score_call env t screenshot_path page_context)
             (fun e => Ok (ux_default e)).

(** ** Effects of [run_journey] *)

(** Messages handed to [progress_callback], by their interpolated parts. *)
Inductive ProgressMsg : Type :=
| PLoading (start_url : string)
| PAccessible
| PTryingAlternative
| PCannotLoad (msg : string)
| PScreenshotFailed
| PAnalyzing (step : Z)
| PStepAction (step : Z) (action label40 : json)
| PJourneyComplete
| PCouldNotClick (label30 : json)
| PStepError (step : Z) (msg : string)
| PAnalysisComplete
| PFatal (msg : string).

(** What the journey does to the outside world, in the order it does it. *)
Inductive Event : Type :=
| EvLaunch
| EvNewContext
| EvNewPage
| EvGoto (url : string) (w : wait_until)
| EvScreenshot (step : Z) (path : string)
| EvDecide (path goal : string) (history : list HistoryEntry) (step : Z)
| EvScore (path page_context : string)
| EvAppend (r : StepRecord)
| EvClick (step : Z) (loc : locator)
| EvScroll (step : Z)
| EvClose
| EvProgress (m : ProgressMsg).

Record St : Type := mkSt {
  self : MysteryShopperAI;
  trace : list Event
}.

(** What [run_journey] returns: a fresh empty list, or the list object
    [self.screenshots] itself.  [RetNone] is falling off the end of the
    function, which no path of [run_journey] does. *)
Inductive retval : Type := RetEmpty | RetScreenshots | RetNone.

(** The list the caller reads through the returned reference. *)
Definition returned_list (o : MysteryShopperAI) (r : retval)
  : list StepRecord :=
  match r with
  | RetScreenshots => screenshots o
  | RetEmpty | RetNone => []
  end.

Inductive outcome (A : Type) : Type :=
| Normal (a : A)
| Raised (e : exn)
| Returned (r : retval)
| Broke
| Continued.
Arguments Normal {A} a.
Arguments Raised {A} e.
Arguments Returned {A} r.
Arguments Broke {A}.
Arguments Continued {A}.

Definition M (A : Type) : Type := St -> outcome A * St.

Definition ret {A} (a : A) : M A := fun s => (Normal a, s).

Definition bind {A B} (m : M A) (k : A -> M B) : M B := fun s =>
  match m s with
  | (Normal a, s') => k a s'
  | (Raised e, s') => (Raised e, s')
  | (Returned r, s') => (Returned r, s')
  | (Broke, s') => (Broke, s')
  | (Continued, s') => (Continued, s')
  end.

Declare Scope journey_scope.
Delimit Scope journey_scope with journey.
Notation "x <- m ;; k" := (bind m (fun x => k))
  (at level 100, m at next level, right associativity) : journey_scope.
Notation "m ;; k" := (bind m (fun _ => k))
  (at level 100, right associativity) : journey_scope.
Open Scope journey_scope.

Definition return_ {A} (r : retval) : M A := fun s => (Returned r, s).
Definition break_ {A} : M A := fun s => (Broke, s).
Definition continue_ {A} : M A := fun s => (Continued, s).

(** A pure result, raised when it is an error. *)
Definition lift {A} (r : result A) : M A := fun s =>
  match r with
  | Ok a => (Normal a, s)
  | Err e => (Raised e, s)
  end.

(** [try: body except Exception as e: handler e]; [return], [break] and
    [continue] pass through. *)
Definition try_except {A} (body : M A) (handler : exn -> M A) : M A :=
  fun s =>
    match body s with
    | (Raised e, s') => handler e s'
    | other => other
    end.

Definition emit (e : Event) : M unit := fun s =>
  (Normal tt, {| self := self s; trace := trace s ++ [e] |}).

(** A call into the environment: logged, then its result. *)
Definition call {A} (e : Event) (r : result A) : M A := emit e ;; lift r.

(** [if progress_callback: progress_callback(m, _)]. *)
Definition progress (cb : bool) (m : ProgressMsg) : M unit :=
  if cb then emit (EvProgress m) else ret tt.

Definition get_action_history : M (list HistoryEntry) := fun s =>
  (Normal (action_history (self s)), s).

(** [self.action_history.append(h)]. *)
Definition append_history (h : HistoryEntry) : M unit := fun s =>
  (Normal tt,
   {| self := {| screenshots := screenshots (self s);
                 action_history := action_history (self s) ++ [h] |};
      trace := trace s |}).

(** [self.screenshots.append(r)]. *)
Definition append_screenshot (r : StepRecord) : M unit := fun s =>
  (Normal tt,
   {| self := {| screenshots := screenshots (self s) ++ [r];
                 action_history := action_history (self s) |};
      trace := trace s ++ [EvAppend r] |}).

(** [for x in xs: body x]. *)
Fixpoint for_each {A} (xs : list A) (body : A -> M unit) : M unit :=
  match xs with
  | [] => ret tt
  | x :: rest => fun s =>
      match body x s with
      | (Normal _, s') | (Continued, s') => for_each rest body s'
      | (Broke, s') => (Normal tt, s')
      | (Raised e, s') => (Raised e, s')
      | (Returned r, s') => (Returned r, s')
      end
  end.

(** The boundary of a function body: [return] delivers its value, an
    exception leaves the function. *)
Definition def (body : M unit) (s : St) : result retval * St :=
  match body s with
  | (Returned r, s') => (Ok r, s')
  | (Raised e, s') => (Err e, s')
  | (Normal _, s') | (Broke, s') | (Continued, s') => (Ok RetNone, s')
  end.

(** [range(lo, hi)]. *)
Definition py_range (lo hi : Z) : list Z :=
  map (fun i => lo + Z.of_nat i) (seq 0 (Z.to_nat (hi - lo))).

(** ** [run_journey] *)

(** [f"step_{step}_{datetime.now().strftime('%H%M%S')}.png"]. *)
Definition screenshot_name (step : Z) (hms : string) : string :=
  "step_" ++ pretty step ++ "_" ++ hms ++ ".png".

(** The four lambdas of the click loop (lines 211-216), in list order. *)
Definition click_strategies (label : json) : list locator :=
  [ GetByText label false;
    GetByRole "button" label;
    GetByRole "link" label;
    LocatorText label ].

(** The loop over the strategies (lines 207-225).  The value is the local
    [clicked]; [break] after a successful click ends the recursion,
    [continue] in the bare [except] moves to the next strategy. *)
Fixpoint click_loop (env : Env) (step : Z) (label : json)
    (strategies : list locator) : M bool :=
  match strategies with
  | [] => ret false
  | strategy :: rest =>
      clicked <- try_except
        (call (EvClick step strategy) (element_click env step strategy);;
         append_history (Clicked label);;
         ret true)
        (fun _ => ret false);;
      if clicked then ret true else click_loop env step label rest
  end.

(** The part of a step after the record is stored: "Execute action"
    (lines 200-235).  There is no branch for an action other than
    "finish", "click" and "scroll". *)
Definition execute_action (env : Env) (cb : bool) (step : Z)
    (decision : json) : M unit :=
  action <- lift (getitem decision "action");;
  if eq_str action "finish" then
    progress cb PJourneyComplete;;
    break_
  else if eq_str action "click" then
    label <- lift (getitem decision "label");;
    clicked <- click_loop env step label (click_strategies label);;
    if negb clicked && cb then
      label30 <- lift (slice_to 30 label);;
      emit (EvProgress (PCouldNotClick label30))
    else ret tt
  else if eq_str action "scroll" then
    try_except (call (EvScroll step) (page_evaluate_scroll env step))
               (fun _ => ret tt)
  else ret tt.

(** The body of the [for step in range(1, max_steps + 1)] loop
    (lines 164-243).  [page.url] is read twice, for the UX prompt and for
    the record. *)
Definition journey_step (env : Env) (goal : string) (cb : bool) (step : Z)
  : M unit :=
  try_except
    (let screenshot_path := screenshot_name step (now_hms env step) in
     try_except
       (call (EvScreenshot step screenshot_path)
             (page_screenshot env step screenshot_path))
       (fun _ => progress cb PScreenshotFailed;; continue_);;
     progress cb (PAnalyzing step);;
     history <- get_action_history;;
     decision <- call (EvDecide screenshot_path goal history step)
                   (get_ai_decision env step screenshot_path goal history step);;
     let page_context := page_url env step 0 in
     ux_analysis <- call (EvScore screenshot_path page_context)
                      (analyze_screenshot_ux env step screenshot_path
                         page_context);;
     append_screenshot {| path := screenshot_path;
                          step := step;
                          url := page_url env step 1;
                          decision := decision;
                          ux_analysis := ux_analysis |};;
     (if cb then
        action <- lift (getitem decision "action");;
        label <- lift (getitem decision "label");;
        label40 <- lift (slice_to 40 label);;
        emit (EvProgress (PStepAction step action label40))
      else ret tt);;
     execute_action env cb step decision)
    (fun e =>
       progress cb (PStepError step (str_prefix 40 (str_exn e)));;
       continue_).

(** The initial load (lines 137-156): strategy 1, then strategy 2; the
    value is the local [page_loaded]. *)
Definition load_page (env : Env) (start_url : string) (cb : bool) : M bool :=
  try_except
    (call (EvGoto start_url Commit) (goto env start_url Commit);;
     progress cb PAccessible;;
     ret true)
    (fun _ =>
       progress cb PTryingAlternative;;
       try_except
         (call (EvGoto start_url Default) (goto env start_url Default);;
          ret true)
         (fun e2 =>
            progress cb (PCannotLoad (str_prefix 50 (str_exn e2)));;
            call EvClose (browser_close env);;
            return_ RetEmpty)).

(** The [try] of [run_journey] (lines 113-255) and its handler, which
    returns the empty list. *)
Definition run_journey_body (env : Env) (start_url goal : string)
    (max_steps : Z) (cb : bool) : M unit :=
  try_except
    (call EvLaunch (launch env);;
     call EvNewContext (new_context env);;
     call EvNewPage (new_page env);;
     progress cb (PLoading start_url);;
     page_loaded <- load_page env start_url cb;;
     (if negb page_loaded then
        call EvClose (browser_close env);;
        return_ RetEmpty
      else ret tt);;
     for_each (py_range 1 (max_steps + 1)) (journey_step env goal cb);;
     call EvClose (browser_close env);;
     progress cb PAnalysisComplete;;
     return_ RetScreenshots)
    (fun e =>
       progress cb (PFatal (str_prefix 50 (str_exn e)));;
       return_ RetEmpty).

Definition run_journey (env : Env) (start_url goal : string)
    (max_steps : Z) (cb : bool) (s : St) : result retval * St :=
  def (run_journey_body env start_url goal max_steps cb) s.

(** An instance in its state [o], before any call was logged. *)
Definition start (o : MysteryShopperAI) : St := {| self := o; trace := [] |}.

(** The number of [browser.close()] calls in a trace. *)
Definition is_close (e : Event) : bool :=
  match e with EvClose => true | _ => false end.

Definition close_count (t : list Event) : nat :=
  length (List.filter is_close t).

(** ** Auxiliary definitions used in the statements *)

Definition click_ok (env : Env) (step : Z) (loc : locator) : bool :=
  match element_click env step loc with
  | Ok _ => true
  | Err _ => false
  end.

(** The strategies actually attempted: all up to and including the first
    one whose click completes. *)
Fixpoint attempted (env : Env) (step : Z) (strategies : list locator)
  : list locator :=
  match strategies with
  | [] => []
  | x :: rest =>
      if click_ok env step x then [x] else x :: attempted env step rest
  end.

(** The step an action-dispatch event (click attempt or scroll) belongs to. *)
Definition dispatch_step (e : Event) : option Z :=
  match e with
  | EvClick k _ | EvScroll k => Some k
  | _ => None
  end.

(** Events a step may log once its record is stored. *)
Definition tail_event (k : Z) (e : Event) : Prop :=
  match e with
  | EvProgress _ => True
  | EvClick k' _ | EvScroll k' => k' = k
  | _ => False
  end.

(** Events a step may log at all. *)
Definition step_event (k : Z) (e : Event) : Prop :=
  match e with
  | EvProgress _ | EvScreenshot _ _ | EvDecide _ _ _ _
  | EvScore _ _ | EvAppend _ => True
  | EvClick k' _ | EvScroll k' => k' = k
  | _ => False
  end.

(** The decision makes the code reach and take the [break]: its action is
    "finish", and with an observer attached the progress line before the
    dispatch can be formatted. *)
Definition formats (cb : bool) (d : json) : bool :=
  negb cb ||
  match getitem d "action", getitem d "label" with
  | Ok _, Ok l => match slice_to 40 l with Ok _ => true | Err _ => false end
  | _, _ => false
  end.

Definition has_action (d : json) (a : string) : bool :=
  match getitem d "action" with
  | Ok v => eq_str v a
  | Err _ => false
  end.

Definition finishes (cb : bool) (d : json) : bool :=
  formats cb d && has_action d "finish".

(** What the code after [self.screenshots.append] does in a step, under
    the step's [try]. *)
Definition step_tail (env : Env) (cb : bool) (step : Z) (decision : json)
  : M unit :=
  try_except
    ((if cb then
        action <- lift (getitem decision "action");;
        label <- lift (getitem decision "label");;
        label40 <- lift (slice_to 40 label);;
        emit (EvProgress (PStepAction step action label40))
      else ret tt);;
     execute_action env cb step decision)
    (fun e =>
       progress cb (PStepError step (str_prefix 40 (str_exn e)));;
       continue_).

(** The value an Oracle wrapper returns: it never raises. *)
Definition value_or {A} (r : result A) (d : exn -> A) : A :=
  match r with
  | Ok a => a
  | Err e => d e
  end.

Definition decision_of (env : Env) (k : Z) (p goal : string)
    (history : list HistoryEntry) : json :=
  value_or (decide_call env k p goal history k) decision_default.

Definition ux_of (env : Env) (k : Z) (p page_context : string) : json :=
  value_or (score_call env k p page_context) ux_default.

(** The record step [k] stores when its screenshot succeeds. *)
Definition record_of (env : Env) (goal : string)
    (history : list HistoryEntry) (k : Z) : StepRecord :=
  let p := screenshot_name k (now_hms env k) in
  {| path := p;
     step := k;
     url := page_url env k 1;
     decision := decision_of env k p goal history;
     ux_analysis := ux_of env k p (page_url env k 0) |}.

(** A record of the log, with the place in the trace [evs] where it was
    produced: the screenshot of its step was taken, [decide] and then
    [score] were called on its path, it was appended, and no action of its
    step had been dispatched before. *)
Definition stored (env : Env) (goal : string) (evs : list Event)
    (r : StepRecord) : Prop :=
  exists (history : list HistoryEntry) (pre post : list Event),
    r = record_of env goal history (step r) /\
    page_screenshot env (step r) (path r) = Ok tt /\
    evs = (pre ++
           [EvDecide (path r) goal history (step r);
            EvScore (path r) (page_url env (step r) 0);
            EvAppend r] ++ post)%list /\
    Forall (fun e => dispatch_step e <> Some (step r)) pre.

Definition is_ok {A} (r : result A) : bool :=
  match r with Ok _ => true | Err _ => false end.

(** The browser, its context and its page could be created. *)
Definition setup_ok (env : Env) : bool :=
  is_ok (launch env) && is_ok (new_context env) && is_ok (new_page env).

(** One of the two loading strategies reached the page. *)
Definition load_ok (env : Env) (start_url : string) : bool :=
  is_ok (goto env start_url Commit) || is_ok (goto env start_url Default).

(** The events before the loop of a journey whose page loaded. *)
Definition opening (env : Env) (start_url : string) (cb : bool)
  : list Event :=
  [EvLaunch; EvNewContext; EvNewPage] ++
  (if cb then [EvProgress (PLoading start_url)] else []) ++
  EvGoto start_url Commit ::
  (if is_ok (goto env start_url Commit)
   then (if cb then [EvProgress PAccessible] else [])
   else (if cb then [EvProgress PTryingAlternative] else []) ++
        [EvGoto start_url Default]).

(** The events after the loop. *)
Definition closing (env : Env) (cb : bool) : list Event :=
  EvClose ::
  (if cb
   then [EvProgress (match browser_close env with
                     | Ok _ => PAnalysisComplete
                     | Err e => PFatal (str_prefix 50 (str_exn e))
                     end)]
   else []).

(** ** Sample environments *)

(** Parsed answers of the model, by the name of the response body. *)
Definition sample_json_loads (text : string) : result json :=
  if String.eqb text "scroll" then
    Ok (JObj [("action", JStr "scroll"); ("label", JStr "page");
              ("value", JStr ""); ("reason", JStr "look further");
              ("ux_observation", JStr "")])
  else if String.eqb text "click" then
    Ok (JObj [("action", JStr "click"); ("label", JStr "Sign In");
              ("value", JStr ""); ("reason", JStr "open the form");
              ("ux_observation", JStr "")])
  else if String.eqb text "finish_null_label" then
    Ok (JObj [("action", JStr "finish"); ("label", JNull);
              ("value", JStr ""); ("reason", JStr "goal reached");
              ("ux_observation", JStr "")])
  else if String.eqb text "ux" then
    Ok (JObj [("page_type", JStr "homepage"); ("ux_issues", JArr []);
              ("positive_aspects", JArr []);
              ("actionable_suggestions", JArr []);
              ("conversion_score", JNum 75);
              ("overall_assessment", JStr "fine")])
  else Err (Exn "JSONDecodeError").

(** An environment in which everything works unless told otherwise:
    [context] is the outcome of [browser.new_context], [shot] of the
    screenshot of a step, [decide] the body of the model's answer to the
    decision prompt of a step, [score] to the UX prompt, [click] the
    outcome of a click attempt. *)
Definition sample_env (context : result unit) (shot : Z -> result unit)
    (decide score : Z -> result string)
    (click : Z -> locator -> result unit) : Env :=
  {| launch := Ok tt;
     new_context := context;
     new_page := Ok tt;
     goto := fun _ _ => Ok tt;
     now_hms := fun _ => "120000";
     page_screenshot := fun k _ => shot k;
     page_url := fun _ _ => "https://example.com/";
     image_open := fun _ _ p => Ok p;
     generate_content := fun k pr _ =>
       match pr with
       | DecidePrompt _ _ _ => decide k
       | UxPrompt _ => score k
       end;
     json_loads := sample_json_loads;
     element_click := click;
     page_evaluate_scroll := fun _ => Ok tt;
     browser_close := Ok tt |}.

Definition no_click (k : Z) (loc : locator) : result unit :=
  Err (Exn "TimeoutError").

(** The model always answers "scroll". *)
Definition env_scroll : Env :=
  sample_env (Ok tt) (fun _ => Ok tt) (fun _ => Ok "scroll")
             (fun _ => Ok "ux") no_click.

(** The browser context cannot be created. *)
Definition env_context_fails : Env :=
  sample_env (Err (Exn "Target closed")) (fun _ => Ok tt)
             (fun _ => Ok "scroll") (fun _ => Ok "ux") no_click.

(** The model answers "finish" with a null label. *)
Definition env_finish_null_label : Env :=
  sample_env (Ok tt) (fun _ => Ok tt) (fun _ => Ok "finish_null_label")
             (fun _ => Ok "ux") no_click.

(** The model asks for a click on "Sign In"; no locator finds it. *)
Definition env_click_fails : Env :=
  sample_env (Ok tt) (fun _ => Ok tt) (fun _ => Ok "click")
             (fun _ => Ok "ux") no_click.

(** As before, but the role "button" locator finds it. *)
Definition env_click_button : Env :=
  sample_env (Ok tt) (fun _ => Ok tt) (fun _ => Ok "click")
             (fun _ => Ok "ux")
             (fun _ loc => match loc with
                           | GetByRole "button" _ => Ok tt
                           | _ => Err (Exn "TimeoutError")
                           end).

(** The screenshot of step 1 times out. *)
Definition env_shot1_fails : Env :=
  sample_env (Ok tt)
             (fun k => if k =? 1 then Err (Exn "TimeoutError") else Ok tt)
             (fun _ => Ok "scroll") (fun _ => Ok "ux") no_click.

(** The model cannot be reached. *)
Definition env_oracle_down : Env :=
  sample_env (Ok tt) (fun _ => Ok tt)
             (fun _ => Err (Exn "503 UNAVAILABLE"))
             (fun _ => Err (Exn "503 UNAVAILABLE")) no_click.

(** ** Definitions that follow the words of the specification *)

(** The order of the locator strategies as the specification words it:
    exact text match, role "button" by name, role "link" by name,
    substring text match. *)
Definition spec_click_order (label : json) : list locator :=
  [ GetByText label true;
    GetByRole "button" label;
    GetByRole "link" label;
    LocatorText label ].

(** The page types of the specification's data model. *)
Definition spec_page_types : list string :=
  ["homepage"; "signup"; "login"; "other"].

Definition page_type_in_spec (ux : json) : bool :=
  match getitem ux "page_type" with
  | Ok (JStr t) => existsb (String.eqb t) spec_page_types
  | _ => false
  end.

(** ** Definitions for the further properties *)

(** [env] with another outcome of [page.goto]. *)
Definition with_goto (g : string -> wait_until -> result unit) (env : Env)
  : Env :=
  {| launch := launch env;
     new_context := new_context env;
     new_page := new_page env;
     goto := g;
     now_hms := now_hms env;
     page_screenshot := page_screenshot env;
     page_url := page_url env;
     image_open := image_open env;
     generate_content := generate_content env;
     json_loads := json_loads env;
     element_click := element_click env;
     page_evaluate_scroll := page_evaluate_scroll env;
     browser_close := browser_close env |}.

(** The page cannot be reached under either loading strategy. *)
Definition env_unreachable : Env :=
  with_goto (fun _ _ => Err (Exn "net::ERR_NAME_NOT_RESOLVED")) env_scroll.

(** The model always answers "scroll" and every scroll raises. *)
Definition env_scroll_raises : Env :=
  {| launch := launch env_scroll;
     new_context := new_context env_scroll;
     new_page := new_page env_scroll;
     goto := goto env_scroll;
     now_hms := now_hms env_scroll;
     page_screenshot := page_screenshot env_scroll;
     page_url := page_url env_scroll;
     image_open := image_open env_scroll;
     generate_content := generate_content env_scroll;
     json_loads := json_loads env_scroll;
     element_click := element_click env_scroll;
     page_evaluate_scroll :=
       fun _ => Err (Exn "Execution context was destroyed");
     browser_close := browser_close env_scroll |}.

(** Every screenshot times out. *)
Definition env_no_shots : Env :=
  sample_env (Ok tt) (fun _ => Err (Exn "TimeoutError"))
             (fun _ => Ok "scroll") (fun _ => Ok "ux") no_click.


(** The number of events of a kind in a trace. *)
Definition count_events (p : Event -> bool) (t : list Event) : nat :=
  length (List.filter p t).

Definition is_screenshot (e : Event) : bool :=
  match e with EvScreenshot _ _ => true | _ => false end.

Definition is_decide (e : Event) : bool :=
  match e with EvDecide _ _ _ _ => true | _ => false end.

Definition is_score (e : Event) : bool :=
  match e with EvScore _ _ => true | _ => false end.

Definition is_append (e : Event) : bool :=
  match e with EvAppend _ => true | _ => false end.

(** The screenshot of step [k] succeeds. *)
Definition shot_ok (env : Env) (k : Z) : bool :=
  is_ok (page_screenshot env k (screenshot_name k (now_hms env k))).

(** The events of a journey whose page loads under neither strategy. *)
Definition abort_events (env : Env) (start_url : string) (cb : bool)
  : list Event :=
  [EvLaunch; EvNewContext; EvNewPage] ++
  (if cb then [EvProgress (PLoading start_url)] else []) ++
  [EvGoto start_url Commit] ++
  (if cb then [EvProgress PTryingAlternative] else []) ++
  [EvGoto start_url Default] ++
  (if cb
   then [EvProgress (PCannotLoad
           (str_prefix 50 (match goto env start_url Default with
                           | Ok _ => ""
                           | Err e => str_exn e
                           end)))]
   else []) ++
  [EvClose] ++
  (if cb
   then match browser_close env with
        | Ok _ => []
        | Err e => [EvProgress (PFatal (str_prefix 50 (str_exn e)))]
        end
   else []).

(** A history entry that records the click asked for by the decision of
    one of the records. *)
Definition click_entry (recs : list StepRecord) (h : HistoryEntry) : Prop :=
  exists r l,
    In r recs /\ has_action (decision r) "click" = true /\
    getitem (decision r) "label" = Ok l /\ h = Clicked l.

(** A click attempt or a scroll of step [k] that the decision [d] asked
    for: the action of [d] is "click" and the locator is one of the four
    strategies for its label, or the action of [d] is "scroll". *)
Definition asked (k : Z) (d : json) (e : Event) : Prop :=
  match e with
  | EvClick k' loc =>
      k' = k /\ has_action d "click" = true /\
      exists l, getitem d "label" = Ok l /\ In loc (click_strategies l)
  | EvScroll k' => k' = k /\ has_action d "scroll" = true
  | _ => True
  end.

(** An event that, when it is a click attempt or a scroll, was asked for
    by the decision of a record of the same step. *)
Definition justified (recs : list StepRecord) (e : Event) : Prop :=
  match dispatch_step e with
  | None => True
  | Some k => exists r, In r recs /\ step r = k /\ asked k (decision r) e
  end.

(** An event that is no screenshot, no Oracle call, no append, no click
    and no scroll. *)
Definition quiet (e : Event) : Prop :=
  is_screenshot e = false /\ is_decide e = false /\ is_score e = false /\
  is_append e = false /\ dispatch_step e = None.

(** ** The caller and the dashboard (app.py, lines 640-750) *)

(** [d.get(k, default)]: only a dict has a [get]. *)
Definition py_get (d : json) (k : string) (default : json) : result json :=
  match d with
  | JObj kv => Ok (match assoc k kv with Some v => v | None => default end)
  | _ => Err (Exn "AttributeError: no attribute get")
  end.

(** [len(v)]: strings, lists and dicts have a length (a character is a
    byte here). *)
Definition py_len (v : json) : result nat :=
  match v with
  | JStr s => Ok (String.length s)
  | JArr l => Ok (length l)
  | JObj kv => Ok (length kv)
  | _ => Err (Exn "TypeError: object has no len()")
  end.

(** [for i in v]: the characters of a string, the items of a list, the
    keys of a dict. *)
Definition py_iter (v : json) : result (list json) :=
  match v with
  | JStr s =>
      Ok (map (fun c => JStr (String c EmptyString)) (list_ascii_of_string s))
  | JArr l => Ok l
  | JObj kv => Ok (map (fun kv => JStr (fst kv)) kv)
  | _ => Err (Exn "TypeError: object is not iterable")
  end.

(** A list comprehension whose element expression may raise: the first
    element that raises ends it. *)
Fixpoint map_result {A B} (f : A -> result B) (l : list A)
  : result (list B) :=
  match l with
  | [] => Ok []
  | x :: rest =>
      bind_result (f x) (fun y =>
      bind_result (map_result f rest) (fun ys => Ok (y :: ys)))
  end.

(** [r['ux_analysis'].get('ux_issues', [])]. *)
Definition issues_of (r : StepRecord) : result json :=
  py_get (ux_analysis r) "ux_issues" (JArr []).

(** [total_issues] (line 716). *)
Definition total_issues (results : list StepRecord) : result nat :=
  bind_result
    (map_result (fun r => bind_result (issues_of r) py_len) results)
    (fun ns => Ok (list_sum ns)).

(** [i.get('severity') == 'high']. *)
Definition is_high (i : json) : result bool :=
  bind_result (py_get i "severity" JNull) (fun v => Ok (eq_str v "high")).

(** [len([i for i in ... if i.get('severity') == 'high'])]. *)
Definition high_of (r : StepRecord) : result nat :=
  bind_result (issues_of r) (fun x =>
  bind_result (py_iter x) (fun items =>
  bind_result (map_result is_high items) (fun flags =>
  Ok (length (List.filter (fun b : bool => b) flags))))).

(** [high_issues] (line 725). *)
Definition high_issues (results : list StepRecord) : result nat :=
  bind_result (map_result high_of results) (fun ns => Ok (list_sum ns)).

(** [all_suggestions] (lines 737-739): [extend] by the suggestions of
    every record, in order. *)
Fixpoint all_suggestions (results : list StepRecord) : result (list json) :=
  match results with
  | [] => Ok []
  | r :: rest =>
      bind_result
        (py_get (ux_analysis r) "actionable_suggestions" (JArr []))
        (fun x =>
      bind_result (py_iter x) (fun items =>
      bind_result (all_suggestions rest) (fun more =>
      Ok (items ++ more)%list)))
  end.

(** One box of "Key Recommendations". *)
Record Recommendation : Type := mkRecommendation {
  number : nat;
  suggestion : json;
  implementation : json;
  expected_impact : json
}.

Definition render_suggestion (idx : nat) (sug : json)
  : result Recommendation :=
  bind_result (py_get sug "suggestion" (JStr "N/A")) (fun a =>
  bind_result (py_get sug "implementation" (JStr "N/A")) (fun b =>
  bind_result (py_get sug "expected_impact" (JStr "N/A")) (fun c =>
  Ok {| number := idx; suggestion := a; implementation := b;
        expected_impact := c |}))).

(** [for idx, sug in enumerate(sugs, idx)]. *)
Fixpoint render_from (idx : nat) (sugs : list json)
  : result (list Recommendation) :=
  match sugs with
  | [] => Ok []
  | sug :: rest =>
      bind_result (render_suggestion idx sug) (fun row =>
      bind_result (render_from (S idx) rest) (fun rows => Ok (row :: rows)))
  end.

(** The boxes shown (lines 741-749): [enumerate(all_suggestions[:5], 1)]. *)
Definition top_recommendations (results : list StepRecord)
  : result (list Recommendation) :=
  bind_result (all_suggestions results) (fun sugs =>
  render_from 1 (firstn 5 sugs)).

(** [not target_url or not target_url.startswith('http')] (line 641). *)
Definition url_rejected (target_url : string) : bool :=
  String.eqb target_url "" || negb (String.prefix "http" target_url).



(** A record with the analysis [ux]. *)
Definition record_with (k : Z) (ux : json) : StepRecord :=
  {| path := "step.png"; step := k; url := "https://example.com/";
     decision := decision_default (Exn "");
     ux_analysis := ux |}.

(** An analysis with one high and one low issue and one suggestion. *)
Definition ux_two_issues : json :=
  JObj [("page_type", JStr "signup");
        ("ux_issues",
         JArr [JObj [("severity", JStr "high"); ("issue", JStr "no label")];
               JObj [("severity", JStr "low"); ("issue", JStr "contrast")]]);
        ("actionable_suggestions",
         JArr [JObj [("suggestion", JStr "add labels");
                     ("implementation", JStr "label element")]]);
        ("conversion_score", JNum 60)].

(** ** Basic facts *)

Lemma get_ai_decision_value env t p goal history k :
  get_ai_decision env t p goal history k
  = Ok (value_or (decide_call env t p goal history k) decision_default).
Proof.
  unfold get_ai_decision, try_result, value_or.
  destruct (decide_call env t p goal history k); reflexivity.
Qed.

Lemma analyze_screenshot_ux_value env t p ctx :
  analyze_screenshot_ux env t p ctx
  = Ok (value_or (score_call env t p ctx) ux_default).
Proof.
  unfold analyze_screenshot_ux, try_result, value_or.
  destruct (score_call env t p ctx); reflexivity.
Qed.

Lemma St_eta (s : St) :
  s = {| self := {| screenshots := screenshots (self s);
                    action_history := action_history (self s) |};
         trace := trace s |}.
Proof. destruct s as [[? ?] ?]; reflexivity. Qed.

Lemma click_loop_run env k label strategies : forall s,
  click_loop env k label strategies s =
  (Normal (existsb (click_ok env k) strategies),
   {| self := {| screenshots := screenshots (self s);
                 action_history :=
                   action_history (self s) ++
                   (if existsb (click_ok env k) strategies
                    then [Clicked label] else []) |};
      trace := trace s ++ map (EvClick k) (attempted env k strategies) |}).
Proof.
  induction strategies as [|x rest IH]; intros s.
  - simpl. unfold ret. rewrite !app_nil_r. f_equal. apply St_eta.
  - cbn [click_loop existsb attempted].
    unfold bind at 1, try_except, call, bind, emit, lift, append_history,
      ret, click_ok.
    destruct (element_click env k x) as [[]|e]; cbn.
    + reflexivity.
    + rewrite IH. cbn. unfold click_ok. rewrite <- app_assoc. reflexivity.
Qed.

Arguments click_loop : simpl never.
Arguments click_strategies : simpl never.

Ltac run_monad :=
  unfold journey_step, step_tail, execute_action, load_page, progress,
    call, bind, try_except, emit, lift, ret, return_, break_, continue_,
    get_action_history, append_screenshot, append_history in *.

(** ** The step loop

    One environment and one goal throughout. *)

Section StepLoop.

Variable env : Env.
Variable goal : string.

Lemma journey_step_skip cb k s e :
  page_screenshot env k (screenshot_name k (now_hms env k)) = Err e ->
  journey_step env goal cb k s =
  (Continued,
   {| self := self s;
      trace := trace s ++
               EvScreenshot k (screenshot_name k (now_hms env k)) ::
               (if cb then [EvProgress PScreenshotFailed] else []) |}).
Proof.
  intros H. run_monad. rewrite H. destruct cb; cbn.
  - rewrite <- app_assoc. reflexivity.
  - reflexivity.
Qed.

Lemma journey_step_store cb k s u :
  page_screenshot env k (screenshot_name k (now_hms env k)) = Ok u ->
  let p := screenshot_name k (now_hms env k) in
  let r := record_of env goal (action_history (self s)) k in
  journey_step env goal cb k s =
  step_tail env cb k (decision r)
    {| self := {| screenshots := screenshots (self s) ++ [r];
                  action_history := action_history (self s) |};
       trace := (trace s ++
                 EvScreenshot k p ::
                 (if cb then [EvProgress (PAnalyzing k)] else [])) ++
                [EvDecide p goal (action_history (self s)) k;
                 EvScore p (page_url env k 0);
                 EvAppend r] |}.
Proof.
  intros H p r. subst p r. unfold record_of, decision_of, ux_of.
  run_monad. rewrite H.
  destruct cb; cbv beta iota;
    rewrite get_ai_decision_value; cbv beta iota;
    rewrite analyze_screenshot_ux_value; cbn;
    rewrite <- ?app_assoc; reflexivity.
Qed.

Lemma Forall_tail_clicks k (ls : list locator) :
  Forall (tail_event k) (map (EvClick k) ls).
Proof. induction ls; constructor; [reflexivity|assumption]. Qed.

Ltac step_cases :=
  repeat (cbn; first
    [ rewrite click_loop_run
    | match goal with
      | |- context [match ?x with Ok _ => _ | Err _ => _ end] =>
          destruct x as [?|?]
      | |- context [if ?b then _ else _] => destruct b
      end ]).

Ltac tail_events :=
  repeat match goal with
    | |- Forall _ (map _ _) => apply Forall_tail_clicks
    | |- Forall _ [] => constructor
    | |- Forall _ (_ :: _) => constructor; [cbn; auto|]
    | |- Forall _ (_ ++ _) => apply Forall_app; split
    end.

Lemma step_tail_post cb k d s :
  exists o s',
    step_tail env cb k d s = (o, s') /\
    screenshots (self s') = screenshots (self s) /\
    (exists hs : list HistoryEntry,
        action_history (self s') = (action_history (self s) ++ hs)%list) /\
    (exists evs : list Event,
        trace s' = (trace s ++ evs)%list /\ Forall (tail_event k) evs) /\
    (o = Broke /\ finishes cb d = true \/
     (o = Normal tt \/ o = Continued) /\ finishes cb d = false).
Proof.
  unfold finishes, formats, has_action. run_monad.
  step_cases.
  all: repeat match goal with u : unit |- _ => destruct u end.
  all: do 2 eexists; split; [reflexivity|]; cbn; rewrite <- ?app_assoc; cbn.
  all: split; [reflexivity|].
  all: split;
    [ first [ exists []; rewrite app_nil_r; reflexivity
            | eexists; reflexivity ] |].
  all: split;
    [ first [ exists []; split; [rewrite app_nil_r; reflexivity|constructor]
            | eexists; split; [reflexivity|tail_events] ] |].
  all: first [ left; split; reflexivity
             | right; split; [first [left; reflexivity|right; reflexivity]
                             |reflexivity] ].
Qed.

Lemma tail_event_step_event k e : tail_event k e -> step_event k e.
Proof. destruct e; cbn; auto. Qed.

Lemma step_event_not_close k e : step_event k e -> is_close e = false.
Proof. destruct e; cbn; tauto. Qed.

Lemma step_event_dispatch k e k' :
  step_event k e -> dispatch_step e = Some k' -> k' = k.
Proof. destruct e; cbn; intros H E; inversion E; subst; auto. Qed.

Lemma journey_step_post cb k s :
  exists o s' (recs : list StepRecord) (hs : list HistoryEntry)
         (evs : list Event),
    journey_step env goal cb k s = (o, s') /\
    screenshots (self s') = (screenshots (self s) ++ recs)%list /\
    action_history (self s') = (action_history (self s) ++ hs)%list /\
    trace s' = (trace s ++ evs)%list /\
    Forall (step_event k) evs /\
    ((recs = [] /\ o = Continued /\
      exists e, page_screenshot env k (screenshot_name k (now_hms env k))
                = Err e) \/
     (exists r, recs = [r] /\ step r = k /\ stored env goal evs r /\
        (o = Broke /\ finishes cb (decision r) = true \/
         (o = Normal tt \/ o = Continued) /\
         finishes cb (decision r) = false))).
Proof.
  destruct (page_screenshot env k (screenshot_name k (now_hms env k)))
    as [u|e] eqn:Hshot.
  - destruct u.
    rewrite (journey_step_store cb k s tt Hshot). cbv zeta.
    set (r := record_of env goal (action_history (self s)) k).
    match goal with |- context [step_tail _ _ _ _ ?s1] =>
      destruct (step_tail_post cb k (decision r) s1)
        as (o & s' & Hrun & Hshots & [hs Hhs] & [evs [Hevs Hall]] & Hfin)
    end.
    cbn in Hshots, Hhs, Hevs.
    set (p := screenshot_name k (now_hms env k)) in *.
    set (pre := EvScreenshot k p ::
                (if cb then [EvProgress (PAnalyzing k)] else [])) in *.
    exists o, s', [r], hs.
    exists (pre ++ [EvDecide p goal (action_history (self s)) k;
                    EvScore p (page_url env k 0); EvAppend r] ++ evs)%list.
    split; [exact Hrun|].
    split; [exact Hshots|]. split; [exact Hhs|].
    split; [rewrite Hevs, <- !app_assoc; reflexivity|].
    split.
    + apply Forall_app; split; [|apply Forall_app; split].
      * subst pre. destruct cb; repeat constructor.
      * repeat constructor.
      * eapply Forall_impl; [exact Hall|]. apply tail_event_step_event.
    + right. exists r. split; [reflexivity|]. split; [reflexivity|].
      split; [|exact Hfin].
      exists (action_history (self s)), pre, evs.
      split; [reflexivity|]. split; [exact Hshot|].
      split; [reflexivity|].
      subst pre. destruct cb; repeat constructor; cbn; discriminate.
  - rewrite (journey_step_skip cb k s e Hshot).
    exists Continued. eexists. exists [], [].
    exists (EvScreenshot k (screenshot_name k (now_hms env k)) ::
            (if cb then [EvProgress PScreenshotFailed] else [])).
    split; [reflexivity|]. cbn. rewrite !app_nil_r.
    split; [reflexivity|]. split; [reflexivity|]. split; [reflexivity|].
    split; [destruct cb; repeat constructor|].
    left. eauto.
Qed.

Lemma stored_more_after evs more r :
  stored env goal evs r -> stored env goal (evs ++ more) r.
Proof.
  intros (h & pre & post & Hr & Hshot & Hevs & Hpre).
  exists h, pre, (post ++ more)%list.
  repeat split; auto. rewrite Hevs, <- !app_assoc. reflexivity.
Qed.

Lemma stored_more_before evs before r :
  Forall (fun e => dispatch_step e <> Some (step r)) before ->
  stored env goal evs r -> stored env goal (before ++ evs) r.
Proof.
  intros Hb (h & pre & post & Hr & Hshot & Hevs & Hpre).
  exists h, (before ++ pre)%list, post.
  repeat split; auto.
  - rewrite Hevs, <- !app_assoc. reflexivity.
  - apply Forall_app; split; assumption.
Qed.

Lemma step_events_other k k' evs :
  k' <> k -> Forall (step_event k) evs ->
  Forall (fun e => dispatch_step e <> Some k') evs.
Proof.
  intros Hne Hall. eapply Forall_impl; [exact Hall|].
  intros e He E. apply Hne. eapply step_event_dispatch; eauto.
Qed.

(** The step loop: it always runs to its end, appends a record for some of
    the step indices, in order, and closes nothing. *)
Lemma journey_loop_post cb ks :
  NoDup ks -> forall s,
  exists s' (recs : list StepRecord) (hs : list HistoryEntry)
         (evs : list Event),
    for_each ks (journey_step env goal cb) s = (Normal tt, s') /\
    screenshots (self s') = (screenshots (self s) ++ recs)%list /\
    action_history (self s') = (action_history (self s) ++ hs)%list /\
    trace s' = (trace s ++ evs)%list /\
    step <$> recs `sublist_of` ks /\
    Forall (stored env goal evs) recs /\
    Forall (fun e => is_close e = false) evs /\
    (forall front r back,
        recs = (front ++ r :: back)%list ->
        finishes cb (decision r) = true -> back = []).
Proof.
  induction ks as [|k ks IH]; intros Hnd s.
  - exists s, [], [], []. cbn. rewrite !app_nil_r.
    repeat split; try constructor.
    intros [|? ?] ? ? E; discriminate E.
  - apply NoDup_cons in Hnd as [Hk Hnd].
    destruct (journey_step_post cb k s)
      as (o & s1 & recs1 & hs1 & evs1 & Hrun & Hs1 & Hh1 & Ht1 & Hev1 & Hcase).
    assert (Hclose1 : Forall (fun e => is_close e = false) evs1).
    { eapply Forall_impl; [exact Hev1|]. apply step_event_not_close. }
    destruct (IH Hnd s1)
      as (s2 & recs2 & hs2 & evs2 & Hloop & Hs2 & Hh2 & Ht2 & Hsub & Hst2
          & Hclose2 & Hlast2).
    assert (Hother : Forall (fun r => Forall
              (fun e => dispatch_step e <> Some (step r)) evs1) recs2).
    { apply Forall_forall. intros r Hr.
      apply step_events_other with (k := k); [|exact Hev1].
      intros E. apply Hk. rewrite <- E.
      eapply elem_of_sublist; [|exact Hsub].
      apply list_elem_of_fmap_2. exact Hr. }
    assert (Hst2' : Forall (stored env goal (evs1 ++ evs2)) recs2).
    { apply Forall_forall. intros r Hr.
      apply stored_more_before.
      - eapply (proj1 (Forall_forall _ _) Hother); exact Hr.
      - eapply (proj1 (Forall_forall _ _) Hst2); exact Hr. }
    cbn [for_each]. rewrite Hrun.
    destruct Hcase as [(-> & -> & _) | (r & -> & Hk' & Hst & Hfin)].
    + exists s2, recs2, (hs1 ++ hs2)%list, (evs1 ++ evs2)%list.
      rewrite Hloop, Hs2, Hs1, Hh2, Hh1, Ht2, Ht1, !app_nil_r, !app_assoc.
      repeat split; auto.
      * apply sublist_cons. exact Hsub.
      * apply Forall_app; split; assumption.
    + destruct Hfin as [[-> Hfin] | [Ho Hfin]].
      * exists s1, [r], hs1, evs1.
        repeat split; auto.
        -- cbn. rewrite Hk'. apply sublist_skip, sublist_nil_l.
        -- intros [|? [|? ?]] ? ? E; inversion E; reflexivity.
      * assert (Hgo : (let (o1, s') := (o, s1) in
                       match o1 with
                       | Normal _ | Continued =>
                           for_each ks (journey_step env goal cb) s'
                       | Broke => (Normal tt, s')
                       | Raised e => (Raised e, s')
                       | Returned r0 => (Returned r0, s')
                       end) = (Normal tt, s2)).
        { destruct Ho as [-> | ->]; exact Hloop. }
        exists s2, (r :: recs2), (hs1 ++ hs2)%list, (evs1 ++ evs2)%list.
        split; [exact Hgo|].
        rewrite Hs2, Hs1, Hh2, Hh1, Ht2, Ht1, <- !app_assoc.
        repeat split; auto.
        -- cbn. rewrite Hk'. apply sublist_skip. exact Hsub.
        -- constructor; [apply stored_more_after; exact Hst|exact Hst2'].
        -- apply Forall_app; split; assumption.
        -- intros [|r0 front] r' back E Hf; cbn in E; inversion E; subst.
           ++ rewrite Hfin in Hf. discriminate Hf.
           ++ eapply Hlast2; eauto.
Qed.

End StepLoop.

Arguments py_range : simpl never.
Arguments for_each : simpl never.

Ltac run_journey_unfold :=
  unfold run_journey, def, run_journey_body, load_page, progress,
    call, bind, try_except, emit, lift, ret, return_.

Lemma py_range_NoDup lo hi : NoDup (py_range lo hi).
Proof.
  unfold py_range. apply NoDup_ListNoDup, Finite.Injective_map_NoDup.
  - intros i j E. lia.
  - apply List.seq_NoDup.
Qed.

Lemma py_range_bounds lo hi : Forall (fun k => lo <= k < hi) (py_range lo hi).
Proof.
  unfold py_range. apply List.Forall_map, Forall_seq. intros j Hj. lia.
Qed.

Lemma steps_in_range lo hi (recs : list StepRecord) :
  step <$> recs `sublist_of` py_range lo hi ->
  Forall (fun rec => lo <= step rec < hi) recs.
Proof.
  intros Hsub. apply Forall_forall. intros rec Hrec.
  apply (proj1 (Forall_forall _ _) (py_range_bounds lo hi)).
  eapply elem_of_sublist; [|exact Hsub].
  apply list_elem_of_fmap_2. exact Hrec.
Qed.

Lemma py_range_length lo hi : length (py_range lo hi) = Z.to_nat (hi - lo).
Proof. unfold py_range. rewrite List.length_map, List.length_seq. reflexivity. Qed.

Lemma opening_quiet env start_url cb :
  Forall (fun e => dispatch_step e = None /\ is_close e = false)
         (opening env start_url cb).
Proof.
  unfold opening.
  destruct cb, (is_ok (goto env start_url Commit));
    repeat constructor.
Qed.

(** A journey whose page loaded: the loop runs, then the browser is
    closed, then the list object is returned (or the failure of [close]
    is reported as fatal). *)
Lemma run_journey_loaded env start_url goal max_steps cb s :
  setup_ok env = true -> load_ok env start_url = true ->
  exists s' (recs : list StepRecord) (hs : list HistoryEntry)
         (evs : list Event),
    run_journey env start_url goal max_steps cb s =
      (Ok (if is_ok (browser_close env) then RetScreenshots else RetEmpty),
       s') /\
    screenshots (self s') = (screenshots (self s) ++ recs)%list /\
    action_history (self s') = (action_history (self s) ++ hs)%list /\
    trace s' = (trace s ++ opening env start_url cb ++ evs ++
                closing env cb)%list /\
    step <$> recs `sublist_of` py_range 1 (max_steps + 1) /\
    Forall (stored env goal evs) recs /\
    Forall (fun e => is_close e = false) evs /\
    (forall front r back,
        recs = (front ++ r :: back)%list ->
        finishes cb (decision r) = true -> back = []).
Proof.
  unfold setup_ok, load_ok, opening, closing, is_ok. intros Hsetup Hload.
  destruct (launch env) as [[]|] eqn:E1; [|discriminate].
  destruct (new_context env) as [[]|] eqn:E2; [|discriminate].
  destruct (new_page env) as [[]|] eqn:E3; [|discriminate].
  clear Hsetup.
  run_journey_unfold. rewrite E1, E2, E3.
  destruct cb; cbn.
  all: destruct (goto env start_url Commit) as [[]|e1] eqn:G1; cbn.
  all: try (destruct (goto env start_url Default) as [[]|e2] eqn:G2;
            [cbn|discriminate]).
  all: match goal with
       |- context [for_each ?ks (journey_step _ _ ?c) ?s0] =>
         destruct (journey_loop_post env goal c ks (py_range_NoDup _ _) s0)
           as (s1 & recs & hs & evs & Hloop & Hs & Hh & Ht & Hsub & Hst
               & Hcl & Hlast);
         rewrite Hloop; cbn in Hs, Hh, Ht
       end.
  all: destruct (browser_close env) as [[]|e] eqn:C; cbn.
  all: eexists; exists recs, hs, evs.
  all: split; [reflexivity|]; cbn.
  all: split; [exact Hs|]; split; [exact Hh|].
  all: split; [rewrite ?Ht, <- ?app_assoc; cbn; rewrite <- ?app_assoc;
               cbn; reflexivity|].
  all: split; [exact Hsub|]; split; [exact Hst|]; split; [exact Hcl|].
  all: exact Hlast.
Qed.

(** A journey whose browser could not be set up or whose page did not
    load: the fresh empty list is returned and the instance is untouched. *)
Lemma run_journey_not_loaded env start_url goal max_steps cb s :
  setup_ok env && load_ok env start_url = false ->
  exists evs : list Event,
    run_journey env start_url goal max_steps cb s =
      (Ok RetEmpty, {| self := self s; trace := trace s ++ evs |}) /\
    close_count evs = (if setup_ok env then 1 else 0)%nat /\
    Forall (fun e => dispatch_step e = None) evs.
Proof.
  unfold setup_ok, load_ok, is_ok. run_journey_unfold.
  destruct (launch env) as [[]|]; cbn;
    [destruct (new_context env) as [[]|]; cbn;
       [destruct (new_page env) as [[]|]; cbn|]|].
  1: destruct (goto env start_url Commit) as [[]|]; cbn;
       [discriminate|];
     destruct (goto env start_url Default) as [[]|]; cbn; [discriminate|];
     intros _; destruct cb; cbn;
     destruct (browser_close env) as [[]|]; cbn.
  all: intros; try destruct cb; cbn.
  all: eexists; split; [rewrite <- ?app_assoc; cbn; reflexivity|].
  all: split; [reflexivity|repeat constructor].
Qed.

Lemma close_count_app (t1 t2 : list Event) :
  close_count (t1 ++ t2) = (close_count t1 + close_count t2)%nat.
Proof. unfold close_count. rewrite List.filter_app, List.length_app. reflexivity. Qed.

Lemma close_count_none (t : list Event) :
  Forall (fun e => is_close e = false) t -> close_count t = 0%nat.
Proof.
  unfold close_count. induction 1 as [|e t He _ IH]; cbn; [reflexivity|].
  rewrite He. exact IH.
Qed.

Lemma closing_count env cb : close_count (closing env cb) = 1%nat.
Proof. unfold closing. destruct cb; reflexivity. Qed.

Lemma opening_count env start_url cb :
  close_count (opening env start_url cb) = 0%nat.
Proof.
  apply close_count_none. eapply Forall_impl; [apply opening_quiet|].
  cbn. tauto.
Qed.

(** Every run, from any state of the instance: it returns, the two lists
    only grow, and the records added are those of the step loop. *)
Lemma run_journey_post env start_url goal max_steps cb o :
  exists r s' (recs : list StepRecord) (hs : list HistoryEntry),
    run_journey env start_url goal max_steps cb (start o) = (Ok r, s') /\
    screenshots (self s') = (screenshots o ++ recs)%list /\
    action_history (self s') = (action_history o ++ hs)%list /\
    step <$> recs `sublist_of` py_range 1 (max_steps + 1) /\
    Forall (stored env goal (trace s')) recs /\
    (forall front r back,
        recs = (front ++ r :: back)%list ->
        finishes cb (decision r) = true -> back = []) /\
    r = (if setup_ok env && load_ok env start_url && is_ok (browser_close env)
         then RetScreenshots else RetEmpty) /\
    close_count (trace s') = (if setup_ok env then 1 else 0)%nat.
Proof.
  destruct (setup_ok env && load_ok env start_url) eqn:Hgo.
  - apply andb_true_iff in Hgo as [Hsetup Hload].
    destruct (run_journey_loaded env start_url goal max_steps cb (start o)
                Hsetup Hload)
      as (s' & recs & hs & evs & Hrun & Hs & Hh & Ht & Hsub & Hst & Hcl
          & Hlast).
    cbn in Hs, Hh.
    change (trace (start o)) with (@nil Event) in Ht.
    rewrite app_nil_l in Ht.
    eexists; exists s', recs, hs. rewrite Hsetup.
    split; [exact Hrun|]. split; [exact Hs|]. split; [exact Hh|].
    split; [exact Hsub|]. split; [|split; [exact Hlast|split]].
    + rewrite Ht. apply Forall_forall. intros r Hr.
      apply stored_more_before.
      * eapply Forall_impl; [apply opening_quiet|].
        cbn. intros e [E _]. rewrite E. discriminate.
      * apply stored_more_after.
        eapply (proj1 (Forall_forall _ _) Hst); exact Hr.
    + reflexivity.
    + rewrite Ht, !close_count_app, opening_count, closing_count.
      rewrite (close_count_none evs Hcl). reflexivity.
  - destruct (run_journey_not_loaded env start_url goal max_steps cb
                (start o) Hgo) as (evs & Hrun & Hcount & _).
    exists RetEmpty. eexists. exists [], [].
    split; [exact Hrun|]. cbn. rewrite !app_nil_r.
    repeat split; auto.
    + apply sublist_nil_l.
    + intros [|? ?] ? ? E; discriminate E.
Qed.

(** The attempts are an initial segment of the strategies: all of them
    when none completes the click, else those up to the first that does. *)
Lemma attempted_spec env k (ls : list locator) :
  attempted env k ls `prefix_of` ls /\
  (if existsb (click_ok env k) ls
   then exists front x,
          attempted env k ls = (front ++ [x])%list /\
          click_ok env k x = true /\
          Forall (fun y => click_ok env k y = false) front
   else attempted env k ls = ls).
Proof.
  induction ls as [|x ls [IHp IHc]]; cbn.
  - split; reflexivity.
  - destruct (click_ok env k x) eqn:Hx; cbn.
    + split; [exists ls; reflexivity|].
      exists [], x. repeat split; [exact Hx|constructor].
    + split; [apply prefix_cons; exact IHp|].
      destruct (existsb (click_ok env k) ls).
      * destruct IHc as (front & y & E & Hy & Hfront).
        exists (x :: front), y. rewrite E.
        repeat split; [exact Hy|constructor; assumption].
      * rewrite IHc. reflexivity.
Qed.

Lemma execute_action_click env cb k d l s :
  getitem d "action" = Ok (JStr "click") ->
  getitem d "label" = Ok (JStr l) ->
  let label := JStr l in
  let clicked := existsb (click_ok env k) (click_strategies label) in
  execute_action env cb k d s =
  (Normal tt,
   {| self := {| screenshots := screenshots (self s);
                 action_history :=
                   action_history (self s) ++
                   (if clicked then [Clicked label] else []) |};
      trace :=
        trace s ++
        map (EvClick k) (attempted env k (click_strategies label)) ++
        (if negb clicked && cb
         then [EvProgress (PCouldNotClick (JStr (str_prefix 30 l)))]
         else []) |}).
Proof.
  intros Ha Hl label clicked. subst label clicked. run_monad.
  rewrite Ha, Hl. cbn. rewrite click_loop_run. cbn.
  destruct cb, (existsb (click_ok env k) (click_strategies (JStr l))); cbn;
    rewrite <- ?app_assoc, ?app_nil_r; reflexivity.
Qed.

Lemma stored_calls env goal evs rec :
  stored env goal evs rec ->
  exists (history : list HistoryEntry) (pre post : list Event),
    page_screenshot env (step rec) (path rec) = Ok tt /\
    path rec = screenshot_name (step rec) (now_hms env (step rec)) /\
    get_ai_decision env (step rec) (path rec) goal history (step rec)
      = Ok (decision rec) /\
    analyze_screenshot_ux env (step rec) (path rec)
      (page_url env (step rec) 0) = Ok (ux_analysis rec) /\
    evs = (pre ++
           [EvDecide (path rec) goal history (step rec);
            EvScore (path rec) (page_url env (step rec) 0);
            EvAppend rec] ++ post)%list /\
    Forall (fun e => dispatch_step e <> Some (step rec)) pre.
Proof.
  intros (h & pre & post & Hr & Hshot & Hevs & Hpre).
  exists h, pre, post.
  assert (Hp : path rec = screenshot_name (step rec) (now_hms env (step rec)))
    by (rewrite Hr at 1; reflexivity).
  assert (Hd : decision rec
               = decision_of env (step rec)
                   (screenshot_name (step rec) (now_hms env (step rec)))
                   goal h)
    by (rewrite Hr at 1; reflexivity).
  assert (Hu : ux_analysis rec
               = ux_of env (step rec)
                   (screenshot_name (step rec) (now_hms env (step rec)))
                   (page_url env (step rec) 0))
    by (rewrite Hr at 1; reflexivity).
  repeat split; auto.
  - rewrite get_ai_decision_value, Hp, Hd. reflexivity.
  - rewrite analyze_screenshot_ux_value, Hp, Hu. reflexivity.
Qed.

(** The degraded decision takes the [break] with or without an observer. *)
Lemma decision_default_finishes cb e : finishes cb (decision_default e) = true.
Proof. destruct cb; reflexivity. Qed.

(** Where the dispatch is reached with a "finish" action, the record of
    that step is the last one of the run. *)
Lemma finish_reached_is_last env start_url goal max_steps cb o front rec back :
  let '(_, s') := run_journey env start_url goal max_steps cb (start o) in
  screenshots (self s') = (screenshots o ++ front ++ rec :: back)%list ->
  finishes cb (decision rec) = true ->
  back = [].
Proof.
  destruct (run_journey_post env start_url goal max_steps cb o)
    as (r & s' & recs & hs & Hrun & Hs & _ & _ & _ & Hlast & _).
  rewrite Hrun. intros E Hf. rewrite Hs in E.
  apply app_inv_head in E. eapply Hlast; eauto.
Qed.

(** [browser.close()] is called once when the browser, context and page
    were created, and not at all otherwise. *)
Lemma close_count_of_run env start_url goal max_steps cb o :
  close_count (trace (snd (run_journey env start_url goal max_steps cb
                             (start o))))
  = (if setup_ok env then 1 else 0)%nat.
Proof.
  destruct (run_journey_post env start_url goal max_steps cb o)
    as (r & s' & recs & hs & Hrun & _ & _ & _ & _ & _ & _ & Hc).
  rewrite Hrun. exact Hc.
Qed.

(** ** The claims *)

(** C1. For every [max_steps >= 1], a journey run on a freshly constructed
    instance returns, and the list it returns has at most [max_steps]
    records: the loop visits the indices [1..max_steps] and the steps of
    the records are a subsequence of them, so each index adds at most one
    record and every recorded index lies in [1..max_steps]. *)
Theorem C1_journey_length_bound env start_url goal max_steps cb :
  1 <= max_steps ->
  exists r s',
    run_journey env start_url goal max_steps cb (start init) = (Ok r, s') /\
    Z.of_nat (length (returned_list (self s') r)) <= max_steps /\
    step <$> returned_list (self s') r
      `sublist_of` py_range 1 (max_steps + 1) /\
    Forall (fun rec => 1 <= step rec <= max_steps)
           (returned_list (self s') r).
Proof.
  intros Hmax.
  destruct (run_journey_post env start_url goal max_steps cb init)
    as (r & s' & recs & hs & Hrun & Hs & _ & Hsub & _ & _ & Hr & _).
  exists r, s'. split; [exact Hrun|].
  cbn in Hs.
  assert (Hlen : Z.of_nat (length recs) <= max_steps).
  { apply sublist_length in Hsub.
    rewrite length_fmap, py_range_length in Hsub. lia. }
  assert (Hin : Forall (fun rec => 1 <= step rec <= max_steps) recs).
  { eapply Forall_impl; [apply (steps_in_range _ _ _ Hsub)|].
    cbn. intros rec Hrec. lia. }
  destruct (setup_ok env && load_ok env start_url
            && is_ok (browser_close env)); subst r; cbn.
  - rewrite Hs. repeat split; assumption.
  - split; [lia|]. split; [apply sublist_nil_l|constructor].
Qed.

(** C1 on a two-step journey in which the model always scrolls. *)
Lemma C1_journey_length_bound_witness :
  exists r s',
    run_journey env_scroll "https://example.com/" "sign up" 2 true
      (start init) = (Ok r, s') /\
    Z.of_nat (length (returned_list (self s') r)) <= 2 /\
    step <$> returned_list (self s') r `sublist_of` py_range 1 (2 + 1) /\
    Forall (fun rec => 1 <= step rec <= 2) (returned_list (self s') r).
Proof.
  apply (C1_journey_length_bound env_scroll "https://example.com/"
           "sign up" 2 true).
  lia.
Defined.

(** C2 (the code departs from the claim). When [browser.new_context]
    raises, the handler of the outer [try] returns the empty list and
    [browser.close()] is never called, although the browser was launched. *)
Theorem C2_fatal_error_skips_close :
  let '(r, s') := run_journey env_context_fails "https://example.com/"
                    "sign up" 3 true (start init) in
  r = Ok RetEmpty /\
  trace s' = [EvLaunch; EvNewContext; EvProgress (PFatal "Target closed")] /\
  close_count (trace s') = 0%nat.
Proof. vm_compute. repeat split. Qed.

(** C3. A failure of the model call is caught inside the wrapper: when the
    body of [get_ai_decision] raises [e], the wrapper returns the default
    decision, whose action is "finish" and whose reason carries the start
    of [str(e)]; when the body of [analyze_screenshot_ux] raises [e], the
    wrapper returns the default analysis, whose score is 0 and whose
    assessment carries the start of [str(e)].  Whatever the model does,
    the step loop runs to its end without raising. *)
Theorem C3_oracle_failures_degrade env t p goal history k ctx e
    max_steps cb s :
  match decide_call env t p goal history k with
  | Ok d => get_ai_decision env t p goal history k = Ok d
  | Err e' => get_ai_decision env t p goal history k
              = Ok (decision_default e')
  end /\
  getitem (decision_default e) "action" = Ok (JStr "finish") /\
  getitem (decision_default e) "reason"
    = Ok (JStr ("AI error: " ++ str_prefix 50 (str_exn e))) /\
  match score_call env t p ctx with
  | Ok u => analyze_screenshot_ux env t p ctx = Ok u
  | Err e' => analyze_screenshot_ux env t p ctx = Ok (ux_default e')
  end /\
  getitem (ux_default e) "conversion_score" = Ok (JNum 0) /\
  getitem (ux_default e) "overall_assessment"
    = Ok (JStr ("Analysis error: " ++ str_prefix 50 (str_exn e))) /\
  exists s',
    for_each (py_range 1 (max_steps + 1)) (journey_step env goal cb) s
    = (Normal tt, s').
Proof.
  split; [|split; [reflexivity|split; [reflexivity|split;
    [|split; [reflexivity|split; [reflexivity|]]]]]].
  - rewrite get_ai_decision_value.
    destruct (decide_call env t p goal history k); reflexivity.
  - rewrite analyze_screenshot_ux_value.
    destruct (score_call env t p ctx); reflexivity.
  - destruct (journey_loop_post env goal cb (py_range 1 (max_steps + 1))
                (py_range_NoDup _ _) s) as (s' & ? & ? & ? & Hloop & _).
    exists s'. exact Hloop.
Qed.

(** C4. In the list returned by a journey on a fresh instance, every
    record was produced in this order: the screenshot at its path was
    taken; [get_ai_decision] was called on that path and gave the record's
    decision; then [analyze_screenshot_ux] was called on the same path and
    gave the record's analysis; then the record was appended; and no
    action of that step (click attempt or scroll) had been dispatched
    before. *)
Theorem C4_record_from_one_screenshot env start_url goal max_steps cb :
  exists r s',
    run_journey env start_url goal max_steps cb (start init) = (Ok r, s') /\
    Forall
      (fun rec =>
         exists (history : list HistoryEntry) (pre post : list Event),
           page_screenshot env (step rec) (path rec) = Ok tt /\
           get_ai_decision env (step rec) (path rec) goal history (step rec)
             = Ok (decision rec) /\
           analyze_screenshot_ux env (step rec) (path rec)
             (page_url env (step rec) 0) = Ok (ux_analysis rec) /\
           trace s' = (pre ++
                       [EvDecide (path rec) goal history (step rec);
                        EvScore (path rec) (page_url env (step rec) 0);
                        EvAppend rec] ++ post)%list /\
           Forall (fun e => dispatch_step e <> Some (step rec)) pre)
      (returned_list (self s') r).
Proof.
  destruct (run_journey_post env start_url goal max_steps cb init)
    as (r & s' & recs & hs & Hrun & Hs & _ & _ & Hst & _ & _ & _).
  exists r, s'. split; [exact Hrun|].
  cbn in Hs. destruct r; cbn; [constructor| |constructor].
  rewrite Hs. eapply Forall_impl; [exact Hst|].
  intros rec Hrec.
  destruct (stored_calls env goal (trace s') rec Hrec)
    as (h & pre & post & H1 & _ & H2 & H3 & H4 & H5).
  exists h, pre, post. repeat split; assumption.
Qed.

(** C5 (the code departs from the claim). With an observer attached, a
    decision whose action is "finish" and whose label is null makes the
    progress line before the dispatch raise; the step handler swallows the
    error and the loop goes on: a second record follows the first. *)
Theorem C5_finish_null_label_goes_on :
  let '(r, s') := run_journey env_finish_null_label "https://example.com/"
                    "sign up" 2 true (start init) in
  r = Ok RetScreenshots /\
  step <$> returned_list (self s') RetScreenshots = [1; 2] /\
  (fun rec => getitem (decision rec) "action")
    <$> returned_list (self s') RetScreenshots
  = [Ok (JStr "finish"); Ok (JStr "finish")] /\
  In (EvProgress (PStepError 1 "TypeError: not sliceable")) (trace s').
Proof. vm_compute. repeat split. tauto. Qed.

(** C6 (counterexample). The first strategy of the code is not the exact
    text match of the specification's order. *)
Lemma C6_counterexample :
  click_strategies (JStr "Sign In") <> spec_click_order (JStr "Sign In").
Proof. unfold click_strategies, spec_click_order. discriminate. Qed.

(** C6 (amended). A click on a text label tries, in this order,
    [get_by_text(label, exact=False)], role "button" by name, role "link"
    by name, and the [text=label] selector; the attempts made are those up
    to and including the first whose click completes, or all four when
    none does; in that case nothing else happens, except that an attached
    observer is told, and the step ends normally, so the loop goes on. *)
Theorem C6_click_dispatch env cb k d l s :
  getitem d "action" = Ok (JStr "click") ->
  getitem d "label" = Ok (JStr l) ->
  let label := JStr l in
  let tried := attempted env k (click_strategies label) in
  let clicked := existsb (click_ok env k) (click_strategies label) in
  click_strategies label =
    [ GetByText label false; GetByRole "button" label;
      GetByRole "link" label; LocatorText label ] /\
  tried `prefix_of` click_strategies label /\
  (if clicked
   then exists front x,
          tried = (front ++ [x])%list /\
          click_ok env k x = true /\
          Forall (fun y => click_ok env k y = false) front
   else tried = click_strategies label) /\
  exists s',
    execute_action env cb k d s = (Normal tt, s') /\
    screenshots (self s') = screenshots (self s) /\
    trace s' =
      (trace s ++ map (EvClick k) tried ++
       (if negb clicked && cb
        then [EvProgress (PCouldNotClick (JStr (str_prefix 30 l)))]
        else []))%list.
Proof.
  intros Ha Hl label tried clicked. split; [reflexivity|].
  destruct (attempted_spec env k (click_strategies label)) as [Hp Hc].
  split; [exact Hp|]. split; [exact Hc|].
  eexists. split; [apply (execute_action_click env cb k d l s Ha Hl)|].
  split; reflexivity.
Qed.

(** C6 on a click on "Sign In" that the role "button" locator completes. *)
Lemma C6_click_dispatch_witness :
  let d := JObj [("action", JStr "click"); ("label", JStr "Sign In")] in
  let label := JStr "Sign In" in
  let tried := attempted env_click_button 1 (click_strategies label) in
  let clicked :=
    existsb (click_ok env_click_button 1) (click_strategies label) in
  click_strategies label =
    [ GetByText label false; GetByRole "button" label;
      GetByRole "link" label; LocatorText label ] /\
  tried `prefix_of` click_strategies label /\
  (if clicked
   then exists front x,
          tried = (front ++ [x])%list /\
          click_ok env_click_button 1 x = true /\
          Forall (fun y => click_ok env_click_button 1 y = false) front
   else tried = click_strategies label) /\
  exists s',
    execute_action env_click_button true 1 d (start init) = (Normal tt, s') /\
    screenshots (self s') = [] /\
    trace s' =
      ([] ++ map (EvClick 1) tried ++
       (if negb clicked && true
        then [EvProgress (PCouldNotClick (JStr (str_prefix 30 "Sign In")))]
        else []))%list.
Proof.
  exact (C6_click_dispatch env_click_button true 1
           (JObj [("action", JStr "click"); ("label", JStr "Sign In")])
           "Sign In" (start init) eq_refl eq_refl).
Defined.

(** A click on "Sign In" that no locator completes, with an observer: the
    four attempts in the order of the code, then the report. *)
Example click_all_fail_trace :
  snd (execute_action env_click_fails true 1
         (JObj [("action", JStr "click"); ("label", JStr "Sign In")])
         (start init))
  = {| self := init;
       trace := [ EvClick 1 (GetByText (JStr "Sign In") false);
                  EvClick 1 (GetByRole "button" (JStr "Sign In"));
                  EvClick 1 (GetByRole "link" (JStr "Sign In"));
                  EvClick 1 (LocatorText (JStr "Sign In"));
                  EvProgress (PCouldNotClick (JStr "Sign In")) ] |}.
Proof. vm_compute. reflexivity. Qed.

(** C7 (counterexample). A click was dispatched and failed; the action
    history does not hold it. *)
Lemma C7_counterexample :
  let s' := snd (run_journey env_click_fails "https://example.com/"
                   "sign up" 1 true (start init)) in
  In (EvClick 1 (GetByText (JStr "Sign In") false)) (trace s') /\
  action_history (self s') = [].
Proof. vm_compute. split; [tauto|reflexivity]. Qed.

(** C7 (amended). After a click is dispatched the history holds one more
    entry, the click, exactly when one of the strategies completed it;
    when all fail the history is unchanged.  Either way the step ends
    normally and the loop goes on. *)
Theorem C7_click_history env cb k d l s :
  getitem d "action" = Ok (JStr "click") ->
  getitem d "label" = Ok (JStr l) ->
  exists s',
    execute_action env cb k d s = (Normal tt, s') /\
    action_history (self s') =
      (action_history (self s) ++
       (if existsb (click_ok env k) (click_strategies (JStr l))
        then [Clicked (JStr l)] else []))%list.
Proof.
  intros Ha Hl.
  eexists. split; [apply (execute_action_click env cb k d l s Ha Hl)|].
  reflexivity.
Qed.

(** C7 on a click on "Sign In" that the role "button" locator completes. *)
Lemma C7_click_history_witness :
  exists s',
    execute_action env_click_button false 1
      (JObj [("action", JStr "click"); ("label", JStr "Sign In")])
      (start init) = (Normal tt, s') /\
    action_history (self s') =
      ([] ++
       (if existsb (click_ok env_click_button 1)
             (click_strategies (JStr "Sign In"))
        then [Clicked (JStr "Sign In")] else []))%list.
Proof.
  exact (C7_click_history env_click_button false 1
           (JObj [("action", JStr "click"); ("label", JStr "Sign In")])
           "Sign In" (start init) eq_refl eq_refl).
Defined.

(** C8 (counterexample). The screenshot of step 1 fails and the one of
    step 2 succeeds: the only record carries step index 2, so the recorded
    indices are not an initial segment of the indices attempted; the
    failed step used up index 1. *)
Lemma C8_counterexample :
  let '(r, s') := run_journey env_shot1_fails "https://example.com/"
                    "sign up" 2 true (start init) in
  r = Ok RetScreenshots /\
  step <$> returned_list (self s') RetScreenshots = [2] /\
  ~ (step <$> returned_list (self s') RetScreenshots
       `prefix_of` py_range 1 (2 + 1)).
Proof.
  vm_compute. split; [reflexivity|]. split; [reflexivity|].
  intros [rest E]. discriminate E.
Qed.

(** C8 (amended). When the screenshot of step [k] fails, the step appends
    nothing and leaves both lists of the instance as they were, and the
    loop continues with the next index; the index [k] is used up: the
    returned list holds no record of step [k], and the recorded indices
    are a subsequence of [1..max_steps]. *)
Theorem C8_failed_screenshot_skips_step env start_url goal max_steps cb k e :
  page_screenshot env k (screenshot_name k (now_hms env k)) = Err e ->
  (forall s, exists evs : list Event,
      journey_step env goal cb k s
      = (Continued, {| self := self s; trace := trace s ++ evs |})) /\
  exists r s',
    run_journey env start_url goal max_steps cb (start init) = (Ok r, s') /\
    Forall (fun rec => step rec <> k) (returned_list (self s') r) /\
    step <$> returned_list (self s') r
      `sublist_of` py_range 1 (max_steps + 1).
Proof.
  intros Hfail. split.
  - intros s. eexists. apply (journey_step_skip env goal cb k s e Hfail).
  - destruct (run_journey_post env start_url goal max_steps cb init)
      as (r & s' & recs & hs & Hrun & Hs & _ & Hsub & Hst & _ & _ & _).
    exists r, s'. split; [exact Hrun|].
    cbn in Hs.
    destruct r; cbn; try (split; [constructor|apply sublist_nil_l]).
    rewrite Hs. split; [|exact Hsub].
    eapply Forall_impl; [exact Hst|].
    intros rec Hrec Hk.
    destruct (stored_calls env goal (trace s') rec Hrec)
      as (h & pre & post & Hshot & Hp & _).
    rewrite Hp, Hk, Hfail in Hshot. discriminate Hshot.
Qed.

(** C8 on a two-step journey whose first screenshot times out. *)
Lemma C8_failed_screenshot_skips_step_witness :
  (forall s, exists evs : list Event,
      journey_step env_shot1_fails "sign up" true 1 s
      = (Continued, {| self := self s; trace := trace s ++ evs |})) /\
  exists r s',
    run_journey env_shot1_fails "https://example.com/" "sign up" 2 true
      (start init) = (Ok r, s') /\
    Forall (fun rec => step rec <> 1) (returned_list (self s') r) /\
    step <$> returned_list (self s') r `sublist_of` py_range 1 (2 + 1).
Proof.
  exact (C8_failed_screenshot_skips_step env_shot1_fails
           "https://example.com/" "sign up" 2 true 1 (Exn "TimeoutError")
           eq_refl).
Defined.

(** C9 (counterexample). When the model call fails, the analysis returned
    has page type "unknown", which is none of the four page types. *)
Lemma C9_counterexample :
  exists ux,
    analyze_screenshot_ux env_oracle_down 1 "step_1_120000.png"
      "https://example.com/" = Ok ux /\
    getitem ux "page_type" = Ok (JStr "unknown") /\
    page_type_in_spec ux = false.
Proof. exists (ux_default (Exn "503 UNAVAILABLE")). vm_compute. repeat split. Qed.

(** C9 (amended). [analyze_screenshot_ux] always returns a value: the
    parsed answer of the model as it is when the call succeeds, and
    otherwise the default, whose page type is "unknown", a fifth value
    outside the four page types. *)
Theorem C9_page_type_of_analysis env t p ctx :
  exists ux,
    analyze_screenshot_ux env t p ctx = Ok ux /\
    match score_call env t p ctx with
    | Ok answer => ux = answer
    | Err e =>
        ux = ux_default e /\
        getitem ux "page_type" = Ok (JStr "unknown") /\
        page_type_in_spec ux = false
    end.
Proof.
  rewrite analyze_screenshot_ux_value. eexists. split; [reflexivity|].
  destruct (score_call env t p ctx); cbn; repeat split.
Qed.

(** C10. The two lists are fields of the instance and no run resets them.
    A first run on an instance in any state, then a second run on the same
    instance that reaches its final [return]: the second call returns the
    list object [self.screenshots], which holds everything the instance
    held after the first run, followed by the records of the second run;
    the list returned by the first call is an initial segment of it, and
    the action history has only grown. *)
Theorem C10_lists_persist env1 env2 url1 url2 goal1 goal2 max1 max2 cb1 cb2 o :
  setup_ok env2 = true ->
  load_ok env2 url2 = true ->
  is_ok (browser_close env2) = true ->
  exists r1 s1 s2 (recs : list StepRecord) (hs : list HistoryEntry),
    run_journey env1 url1 goal1 max1 cb1 (start o) = (Ok r1, s1) /\
    run_journey env2 url2 goal2 max2 cb2 (start (self s1))
      = (Ok RetScreenshots, s2) /\
    screenshots o `prefix_of` screenshots (self s1) /\
    returned_list (self s2) RetScreenshots
      = (screenshots (self s1) ++ recs)%list /\
    returned_list (self s1) r1
      `prefix_of` returned_list (self s2) RetScreenshots /\
    action_history (self s2) = (action_history (self s1) ++ hs)%list.
Proof.
  intros Hsetup Hload Hclose.
  destruct (run_journey_post env1 url1 goal1 max1 cb1 o)
    as (r1 & s1 & recs1 & hs1 & Hrun1 & Hs1 & _ & _ & _ & _ & Hr1 & _).
  destruct (run_journey_post env2 url2 goal2 max2 cb2 (self s1))
    as (r2 & s2 & recs2 & hs2 & Hrun2 & Hs2 & Hh2 & _ & _ & _ & Hr2 & _).
  rewrite Hsetup, Hload, Hclose in Hr2. cbn in Hr2. subst r2.
  exists r1, s1, s2, recs2, hs2.
  split; [exact Hrun1|]. split; [exact Hrun2|].
  split; [exists recs1; exact Hs1|].
  split; [exact Hs2|]. split; [|exact Hh2].
  cbn. rewrite Hs2.
  destruct r1; cbn.
  - apply prefix_nil.
  - apply prefix_app_r. reflexivity.
  - apply prefix_nil.
Qed.

(** C10 on two one-step journeys run on one instance. *)
Lemma C10_lists_persist_witness :
  exists r1 s1 s2 (recs : list StepRecord) (hs : list HistoryEntry),
    run_journey env_scroll "https://example.com/" "sign up" 1 true
      (start init) = (Ok r1, s1) /\
    run_journey env_click_button "https://example.com/" "sign in" 1 false
      (start (self s1)) = (Ok RetScreenshots, s2) /\
    screenshots init `prefix_of` screenshots (self s1) /\
    returned_list (self s2) RetScreenshots
      = (screenshots (self s1) ++ recs)%list /\
    returned_list (self s1) r1
      `prefix_of` returned_list (self s2) RetScreenshots /\
    action_history (self s2) = (action_history (self s1) ++ hs)%list.
Proof.
  exact (C10_lists_persist env_scroll env_click_button
           "https://example.com/" "https://example.com/"
           "sign up" "sign in" 1 1 true false init eq_refl eq_refl eq_refl).
Defined.

(** The bound of C1 and the order of the step indices fail on a reused
    instance: two runs with [max_steps = 1] return a list of two records,
    both of step 1. *)
Example second_run_exceeds_max_steps :
  let s1 := snd (run_journey env_scroll "https://example.com/" "sign up"
                   1 true (start init)) in
  let '(r2, s2) := run_journey env_scroll "https://example.com/" "sign up"
                     1 true (start (self s1)) in
  r2 = Ok RetScreenshots /\
  step <$> returned_list (self s2) RetScreenshots = [1; 1] /\
  (1 < length (returned_list (self s2) RetScreenshots))%nat.
Proof. cbv zeta. vm_compute. repeat split; lia. Qed.

(** ** Further properties of the journey *)

Lemma py_range_cons lo hi :
  lo < hi -> py_range lo hi = lo :: py_range (lo + 1) hi.
Proof.
  intros H. unfold py_range.
  replace (Z.to_nat (hi - lo)) with (S (Z.to_nat (hi - (lo + 1)))) by lia.
  cbn [seq map]. f_equal; [lia|].
  rewrite <- List.seq_shift, List.map_map.
  apply List.map_ext. intros i. lia.
Qed.

Lemma py_range_empty lo hi : hi <= lo -> py_range lo hi = [].
Proof.
  intros H. unfold py_range.
  replace (Z.to_nat (hi - lo)) with 0%nat by lia. reflexivity.
Qed.

Lemma py_range_sorted lo hi : StronglySorted Z.lt (py_range lo hi).
Proof.
  unfold py_range. generalize (Z.to_nat (hi - lo)) as n. intros n.
  generalize 0%nat as i. induction n as [|n IH]; intros i; cbn.
  - constructor.
  - constructor; [apply IH|].
    apply List.Forall_map, Forall_seq. intros j Hj. lia.
Qed.

Lemma StronglySorted_sublist {A} (R : A -> A -> Prop) (l1 l2 : list A) :
  l1 `sublist_of` l2 -> StronglySorted R l2 -> StronglySorted R l1.
Proof.
  induction 1 as [|x l1 l2 Hsub IH|x l1 l2 Hsub IH]; intros Hs.
  - constructor.
  - apply StronglySorted_inv in Hs as [Hs Hx].
    constructor; [apply IH; exact Hs|].
    apply Forall_forall. intros y Hy.
    apply (proj1 (Forall_forall _ _) Hx).
    eapply elem_of_sublist; eassumption.
  - apply StronglySorted_inv in Hs as [Hs _]. apply IH; exact Hs.
Qed.

(** A journey whose page loaded, in terms of its step loop: the events of
    the opening, the loop, the events of the closing. *)
Lemma run_journey_through_loop env start_url goal max_steps cb s s1 :
  setup_ok env = true -> load_ok env start_url = true ->
  for_each (py_range 1 (max_steps + 1)) (journey_step env goal cb)
    {| self := self s; trace := trace s ++ opening env start_url cb |}
  = (Normal tt, s1) ->
  run_journey env start_url goal max_steps cb s =
  (Ok (if is_ok (browser_close env) then RetScreenshots else RetEmpty),
   {| self := self s1; trace := trace s1 ++ closing env cb |}).
Proof.
  unfold setup_ok, load_ok, opening, closing, is_ok. intros Hsetup Hload.
  destruct (launch env) as [[]|] eqn:E1; [|discriminate].
  destruct (new_context env) as [[]|] eqn:E2; [|discriminate].
  destruct (new_page env) as [[]|] eqn:E3; [|discriminate].
  clear Hsetup.
  run_journey_unfold. rewrite E1, E2, E3.
  destruct cb; cbn.
  all: destruct (goto env start_url Commit) as [[]|e1] eqn:G1; cbn.
  all: try (destruct (goto env start_url Default) as [[]|e2] eqn:G2;
            [cbn|discriminate]).
  all: rewrite <- ?app_assoc; cbn.
  all: intros Hloop; rewrite Hloop.
  all: destruct (browser_close env) as [[]|e] eqn:C; cbn.
  all: rewrite <- ?app_assoc; reflexivity.
Qed.

Section StepAccount.

Variable env : Env.
Variable goal : string.

Ltac account_cases :=
  repeat (cbn; first
    [ rewrite click_loop_run
    | match goal with
      | |- context [match ?x with Ok _ => _ | Err _ => _ end] =>
          destruct x as [?|?]
      | |- context [if ?b then _ else _] => destruct b
      end ]).

Ltac account_events :=
  repeat match goal with
    | |- Forall _ (map _ _) => apply Forall_tail_clicks
    | |- Forall _ [] => constructor
    | |- Forall _ (_ :: _) => constructor; [cbn; auto|]
    | |- Forall _ (_ ++ _) => apply Forall_app; split
    end.

Lemma attempted_In k (ls : list locator) x :
  In x (attempted env k ls) -> In x ls.
Proof.
  induction ls as [|y ls IH]; cbn; [tauto|].
  destruct (click_ok env k y); cbn; intuition.
Qed.

Lemma Forall_clicks_attempted (P : Event -> Prop) k (ls : list locator) :
  (forall loc, In loc ls -> P (EvClick k loc)) ->
  Forall P (map (EvClick k) (attempted env k ls)).
Proof.
  intros H. apply List.Forall_map, List.Forall_forall.
  intros loc Hloc. apply H. eapply attempted_In. exact Hloc.
Qed.

Ltac asked_events :=
  repeat match goal with
    | |- Forall _ (map _ (attempted _ _ _)) =>
        apply Forall_clicks_attempted; intros loc Hloc;
        split; [reflexivity|split; [reflexivity|
          eexists; split; [reflexivity|exact Hloc]]]
    | |- Forall _ [] => constructor
    | |- Forall _ (_ :: _) => constructor; [cbn; auto|]
    | |- Forall _ (_ ++ _) => apply Forall_app; split
    end.

(** What the rest of a step adds once the record is stored: nothing to the
    log; to the history the click, when the decision asked for one and it
    was completed; to the trace only progress lines, click attempts and a
    scroll. *)
Lemma step_tail_account cb k d s :
  exists o s' (hs : list HistoryEntry) (evs : list Event),
    step_tail env cb k d s = (o, s') /\
    screenshots (self s') = screenshots (self s) /\
    action_history (self s') = (action_history (self s) ++ hs)%list /\
    trace s' = (trace s ++ evs)%list /\
    Forall (tail_event k) evs /\
    Forall (asked k d) evs /\
    (hs = [] \/
     exists l, hs = [Clicked l] /\ getitem d "label" = Ok l /\
               has_action d "click" = true) /\
    (o = Broke /\ finishes cb d = true \/
     (o = Normal tt \/ o = Continued) /\ finishes cb d = false).
Proof.
  unfold finishes, formats, asked, has_action. run_monad.
  account_cases.
  all: repeat match goal with u : unit |- _ => destruct u end.
  all: do 2 eexists.
  all: match goal with
       | |- exists hs evs, (_, {| self := {| screenshots := _;
                 action_history := (_ ++ ?h)%list |}; trace := _ |}) = _ /\ _ =>
           exists h
       | |- _ => exists []
       end.
  all: eexists; split; [reflexivity|]; cbn; rewrite <- ?app_assoc; cbn.
  all: split; [reflexivity|].
  all: split; [rewrite ?app_nil_r; reflexivity|].
  all: split; [first [ instantiate (1 := []); rewrite app_nil_r; reflexivity
                     | reflexivity ]|].
  all: split; [account_events|].
  all: split; [asked_events|].
  all: split; [first [ left; reflexivity
                     | right; eexists; repeat split; reflexivity ]|].
  all: first [ left; split; reflexivity
             | right; split; [first [left; reflexivity|right; reflexivity]
                             |reflexivity] ].
Qed.

Lemma for_each_nil {A} (body : A -> M unit) s :
  for_each [] body s = (Normal tt, s).
Proof. reflexivity. Qed.

Lemma for_each_cons {A} (x : A) rest (body : A -> M unit) s :
  for_each (x :: rest) body s =
  match body x s with
  | (Normal _, s') | (Continued, s') => for_each rest body s'
  | (Broke, s') => (Normal tt, s')
  | (Raised e, s') => (Raised e, s')
  | (Returned r, s') => (Returned r, s')
  end.
Proof. reflexivity. Qed.

Lemma count_events_app p (t1 t2 : list Event) :
  count_events p (t1 ++ t2) = (count_events p t1 + count_events p t2)%nat.
Proof.
  unfold count_events. rewrite List.filter_app, List.length_app. reflexivity.
Qed.

Lemma count_events_none p (t : list Event) :
  Forall (fun e => p e = false) t -> count_events p t = 0%nat.
Proof.
  unfold count_events. induction 1 as [|e t He _ IH]; cbn; [reflexivity|].
  rewrite He. exact IH.
Qed.

Lemma count_tail_events p k (evs : list Event) :
  (forall e, tail_event k e -> p e = false) ->
  Forall (tail_event k) evs -> count_events p evs = 0%nat.
Proof.
  intros Hp Hall. apply count_events_none.
  eapply Forall_impl; [exact Hall|]. exact Hp.
Qed.

Lemma tail_event_kinds k e :
  tail_event k e ->
  is_screenshot e = false /\ is_decide e = false /\
  is_score e = false /\ is_append e = false.
Proof. destruct e; cbn; tauto. Qed.

(** One step, with what it calls: one screenshot; when that fails, nothing
    else; when it succeeds, one [decide], one [score], one record, and
    only the clicks or the scroll its decision asked for. *)
Lemma journey_step_account cb k s :
  exists o s' (hs : list HistoryEntry) (evs : list Event),
    journey_step env goal cb k s = (o, s') /\
    action_history (self s') = (action_history (self s) ++ hs)%list /\
    trace s' = (trace s ++ evs)%list /\
    count_events is_screenshot evs = 1%nat /\
    Forall (step_event k) evs /\
    (shot_ok env k = false /\ o = Continued /\
     screenshots (self s') = screenshots (self s) /\ hs = [] /\
     count_events is_decide evs = 0%nat /\
     count_events is_score evs = 0%nat /\
     count_events is_append evs = 0%nat /\
     Forall (fun e => dispatch_step e = None) evs
     \/
     shot_ok env k = true /\
     screenshots (self s')
       = (screenshots (self s)
          ++ [record_of env goal (action_history (self s)) k])%list /\
     count_events is_decide evs = 1%nat /\
     count_events is_score evs = 1%nat /\
     count_events is_append evs = 1%nat /\
     Forall (asked k (decision
                        (record_of env goal (action_history (self s)) k)))
            evs /\
     (hs = [] \/
      exists l,
        hs = [Clicked l] /\
        getitem (decision (record_of env goal (action_history (self s)) k))
          "label" = Ok l /\
        has_action (decision (record_of env goal (action_history (self s)) k))
          "click" = true) /\
     (o = Broke /\
      finishes cb (decision (record_of env goal (action_history (self s)) k))
        = true \/
      (o = Normal tt \/ o = Continued) /\
      finishes cb (decision (record_of env goal (action_history (self s)) k))
        = false)).
Proof.
  unfold shot_ok.
  destruct (page_screenshot env k (screenshot_name k (now_hms env k)))
    as [u|e] eqn:Hshot.
  - destruct u.
    rewrite (journey_step_store env goal cb k s tt Hshot). cbv zeta.
    set (r := record_of env goal (action_history (self s)) k).
    match goal with |- context [step_tail _ _ _ _ ?s1] =>
      destruct (step_tail_account cb k (decision r) s1)
        as (o & s' & hs & evs & Hrun & Hshots & Hhs & Hevs & Hall & Hask
            & Hhist & Hfin)
    end.
    cbn in Hshots, Hhs, Hevs.
    set (p := screenshot_name k (now_hms env k)) in *.
    set (pre := EvScreenshot k p ::
                (if cb then [EvProgress (PAnalyzing k)] else [])) in *.
    set (mid := [EvDecide p goal (action_history (self s)) k;
                 EvScore p (page_url env k 0); EvAppend r]) in *.
    assert (Hz : forall q, (forall e, tail_event k e -> q e = false) ->
                           count_events q evs = 0%nat)
      by (intros q Hq; apply (count_tail_events q k evs Hq Hall)).
    exists o, s', hs, (pre ++ mid ++ evs)%list.
    split; [exact Hrun|]. split; [exact Hhs|].
    split; [rewrite Hevs, <- !app_assoc; reflexivity|].
    rewrite !count_events_app.
    rewrite (Hz is_screenshot), (Hz is_decide), (Hz is_score),
      (Hz is_append) by (intros e0 He0; apply (tail_event_kinds k e0 He0)).
    split; [subst pre mid; destruct cb; reflexivity|].
    split.
    { apply Forall_app; split; [|apply Forall_app; split].
      - subst pre. destruct cb; repeat constructor.
      - subst mid. repeat constructor.
      - eapply Forall_impl; [exact Hall|]. apply tail_event_step_event. }
    right. split; [reflexivity|]. split; [exact Hshots|].
    split; [subst pre mid; destruct cb; reflexivity|].
    split; [subst pre mid; destruct cb; reflexivity|].
    split; [subst pre mid; destruct cb; reflexivity|].
    split; [|split; [exact Hhist|exact Hfin]].
    apply Forall_app; split; [|apply Forall_app; split].
    + subst pre. destruct cb; repeat constructor.
    + subst mid. repeat constructor.
    + exact Hask.
  - rewrite (journey_step_skip env goal cb k s e Hshot).
    exists Continued. eexists. exists [].
    exists (EvScreenshot k (screenshot_name k (now_hms env k)) ::
            (if cb then [EvProgress PScreenshotFailed] else [])).
    split; [reflexivity|]. cbn. rewrite !app_nil_r.
    split; [reflexivity|]. split; [reflexivity|].
    split; [destruct cb; reflexivity|].
    split; [destruct cb; repeat constructor|].
    left. repeat split; destruct cb; try reflexivity; repeat constructor.
Qed.

Lemma click_entry_more r recs h :
  click_entry recs h -> click_entry (r :: recs) h.
Proof.
  intros (r0 & l & Hin & Ha & Hl & Hh). exists r0, l.
  repeat split; auto. right. exact Hin.
Qed.

Lemma justified_more r recs e : justified recs e -> justified (r :: recs) e.
Proof.
  unfold justified. destruct (dispatch_step e); [|tauto].
  intros (r0 & Hin & Hk & Ha). exists r0. repeat split; auto.
  right. exact Hin.
Qed.

Lemma justified_quiet recs e : dispatch_step e = None -> justified recs e.
Proof. unfold justified. intros ->. exact I. Qed.

Lemma asked_justified k r recs e :
  step r = k -> asked k (decision r) e -> justified (r :: recs) e.
Proof.
  intros Hk Ha. unfold justified.
  destruct e; cbn; try exact I.
  - cbn in Ha. destruct Ha as [-> Ha]. exists r.
    split; [left; reflexivity|]. split; [exact Hk|].
    split; [reflexivity|exact Ha].
  - cbn in Ha. destruct Ha as [-> Ha]. exists r.
    split; [left; reflexivity|]. split; [exact Hk|].
    split; [reflexivity|exact Ha].
Qed.

(** The step loop with its accounts.  [n] is the number of steps run: all
    of them, unless the last record made the loop stop.  The records are
    those of the steps run whose screenshot succeeded, in order. *)
Lemma journey_loop_account cb ks : forall s,
  exists s' (recs : list StepRecord) (hs : list HistoryEntry)
         (evs : list Event) (n : nat),
    for_each ks (journey_step env goal cb) s = (Normal tt, s') /\
    screenshots (self s') = (screenshots (self s) ++ recs)%list /\
    action_history (self s') = (action_history (self s) ++ hs)%list /\
    trace s' = (trace s ++ evs)%list /\
    (n <= length ks)%nat /\
    step <$> recs = List.filter (shot_ok env) (firstn n ks) /\
    Forall (fun r => exists h, r = record_of env goal h (step r)) recs /\
    (n = length ks /\
     Forall (fun r => finishes cb (decision r) = false) recs
     \/
     exists front r,
       recs = (front ++ [r])%list /\ finishes cb (decision r) = true /\
       Forall (fun r => finishes cb (decision r) = false) front) /\
    count_events is_screenshot evs = n /\
    count_events is_decide evs = length recs /\
    count_events is_score evs = length recs /\
    count_events is_append evs = length recs /\
    (length hs <= length recs)%nat /\
    Forall (click_entry recs) hs /\
    Forall (justified recs) evs.
Proof.
  induction ks as [|k ks IH]; intros s.
  - exists s, [], [], [], 0%nat. rewrite for_each_nil, !app_nil_r.
    repeat split; try (left; split; constructor); try constructor.
  - destruct (journey_step_account cb k s)
      as (o & s1 & hs1 & evs1 & Hrun & Hh1 & Ht1 & Hc1 & _ & Hcase).
    destruct (IH s1)
      as (s2 & recs2 & hs2 & evs2 & n2 & Hloop & Hs2 & Hh2 & Ht2 & Hn2
          & Hsteps2 & Hrec2 & Hend2 & Hcs2 & Hcd2 & Hco2 & Hca2 & Hlen2
          & Hent2 & Hjust2).
    rewrite for_each_cons, Hrun.
    destruct Hcase as [(Hshot & -> & Hs1 & -> & Hd1 & Ho1 & Ha1 & Hq1)
                      |(Hshot & Hs1 & Hd1 & Ho1 & Ha1 & Hask & Hhist & Hfin)].
    + exists s2, recs2, hs2, (evs1 ++ evs2)%list, (S n2).
      rewrite Hloop, Hs2, Hs1, Hh2, Hh1, Ht2, Ht1, !app_nil_r,
        <- !app_assoc, !count_events_app, Hc1, Hd1, Ho1, Ha1, Hcs2, Hcd2,
        Hco2, Hca2.
      cbn [firstn List.filter length]. rewrite Hshot.
      repeat split; auto; try lia.
      * destruct Hend2 as [[-> Hall] | Hstop];
          [left; split; auto|right; auto].
      * apply Forall_app; split; [|exact Hjust2].
        eapply Forall_impl; [exact Hq1|]. apply justified_quiet.
    + set (r := record_of env goal (action_history (self s)) k) in *.
      assert (Hlen1 : (length hs1 <= 1)%nat)
        by (destruct Hhist as [-> | (l & -> & _)]; cbn; lia).
      assert (Hent1 : forall recs, Forall (click_entry (r :: recs)) hs1).
      { intros recs. destruct Hhist as [-> | (l & -> & Hl & Hact)].
        - constructor.
        - constructor; [|constructor]. exists r, l.
          repeat split; auto. left. reflexivity. }
      assert (Hjust1 : forall recs, Forall (justified (r :: recs)) evs1).
      { intros recs. eapply Forall_impl; [exact Hask|].
        intros e He. eapply asked_justified; [reflexivity|exact He]. }
      destruct Hfin as [[-> Hfin] | [Ho Hfin]].
      * exists s1, [r], hs1, evs1, 1%nat.
        rewrite Hs1, Hh1, Ht1, Hc1, Hd1, Ho1, Ha1.
        cbn [firstn List.filter length]. rewrite Hshot.
        repeat split; auto; try (cbn; lia).
        -- constructor; [|constructor].
           exists (action_history (self s)); reflexivity.
        -- right. exists [], r. repeat split; auto.
      * assert (Hgo : (let (o1, s') := (o, s1) in
                       match o1 with
                       | Normal _ | Continued =>
                           for_each ks (journey_step env goal cb) s'
                       | Broke => (Normal tt, s')
                       | Raised e => (Raised e, s')
                       | Returned r0 => (Returned r0, s')
                       end) = (Normal tt, s2)).
        { destruct Ho as [-> | ->]; exact Hloop. }
        exists s2, (r :: recs2), (hs1 ++ hs2)%list, (evs1 ++ evs2)%list,
          (S n2).
        split; [exact Hgo|].
        rewrite Hs2, Hs1, Hh2, Hh1, Ht2, Ht1, <- !app_assoc,
          !count_events_app, Hc1, Hd1, Ho1, Ha1, Hcs2, Hcd2, Hco2, Hca2.
        cbn [firstn List.filter length]. rewrite Hshot.
        rewrite List.length_app.
        repeat split; auto; try lia.
        -- rewrite fmap_cons, Hsteps2. reflexivity.
        -- constructor; [|exact Hrec2].
           exists (action_history (self s)); reflexivity.
        -- destruct Hend2 as [[-> Hall] | (front & r' & -> & Hr' & Hfront)].
           ++ left. split; [reflexivity|]. constructor; assumption.
           ++ right. exists (r :: front), r'.
              repeat split; auto; try (constructor; assumption).
        -- apply Forall_app; split; [apply Hent1|].
           eapply Forall_impl; [exact Hent2|]. apply click_entry_more.
        -- apply Forall_app; split; [apply Hjust1|].
           eapply Forall_impl; [exact Hjust2|]. apply justified_more.
Qed.

End StepAccount.

Lemma opening_is_quiet env start_url cb :
  Forall quiet (opening env start_url cb).
Proof.
  unfold opening, quiet.
  destruct cb, (is_ok (goto env start_url Commit)); repeat constructor.
Qed.

Lemma closing_is_quiet env cb : Forall quiet (closing env cb).
Proof. unfold closing, quiet. destruct cb; repeat constructor. Qed.

Lemma count_quiet p (t : list Event) :
  (forall e, quiet e -> p e = false) ->
  Forall quiet t -> count_events p t = 0%nat.
Proof.
  intros Hp Hall. apply count_events_none.
  eapply Forall_impl; [exact Hall|]. exact Hp.
Qed.

Lemma quiet_justified recs e : quiet e -> justified recs e.
Proof. intros (_ & _ & _ & _ & H). apply justified_quiet. exact H. Qed.

(** A journey that does not reach the step loop, with its exact trace
    when the browser was set up. *)
Lemma run_journey_abort_quiet env start_url goal max_steps cb s :
  setup_ok env && load_ok env start_url = false ->
  exists evs : list Event,
    run_journey env start_url goal max_steps cb s =
      (Ok RetEmpty, {| self := self s; trace := trace s ++ evs |}) /\
    Forall quiet evs /\
    (setup_ok env = true -> evs = abort_events env start_url cb).
Proof.
  unfold setup_ok, load_ok, is_ok, abort_events, quiet. run_journey_unfold.
  destruct (launch env) as [[]|]; cbn;
    [destruct (new_context env) as [[]|]; cbn;
       [destruct (new_page env) as [[]|]; cbn|]|].
  1: destruct (goto env start_url Commit) as [[]|]; cbn;
       [discriminate|];
     destruct (goto env start_url Default) as [[]|]; cbn; [discriminate|];
     intros _; destruct cb; cbn;
     destruct (browser_close env) as [[]|]; cbn.
  all: intros; try destruct cb; cbn.
  all: eexists; split; [rewrite <- ?app_assoc; cbn; reflexivity|].
  all: split; [repeat constructor|].
  all: first [discriminate|reflexivity].
Qed.

(** A journey that reaches the step loop, with the accounts of the loop. *)
Lemma run_journey_account env start_url goal max_steps cb o :
  setup_ok env = true -> load_ok env start_url = true ->
  exists s' (recs : list StepRecord) (hs : list HistoryEntry)
         (evs : list Event) (n : nat),
    run_journey env start_url goal max_steps cb (start o) =
      (Ok (if is_ok (browser_close env) then RetScreenshots else RetEmpty),
       s') /\
    screenshots (self s') = (screenshots o ++ recs)%list /\
    action_history (self s') = (action_history o ++ hs)%list /\
    trace s' = (opening env start_url cb ++ evs ++ closing env cb)%list /\
    (n <= Z.to_nat max_steps)%nat /\
    step <$> recs
      = List.filter (shot_ok env) (firstn n (py_range 1 (max_steps + 1))) /\
    Forall (fun r => exists h, r = record_of env goal h (step r)) recs /\
    (n = Z.to_nat max_steps /\
     Forall (fun r => finishes cb (decision r) = false) recs
     \/
     exists front r,
       recs = (front ++ [r])%list /\ finishes cb (decision r) = true /\
       Forall (fun r => finishes cb (decision r) = false) front) /\
    count_events is_screenshot evs = n /\
    count_events is_decide evs = length recs /\
    count_events is_score evs = length recs /\
    count_events is_append evs = length recs /\
    (length hs <= length recs)%nat /\
    Forall (click_entry recs) hs /\
    Forall (justified recs) evs.
Proof.
  intros Hsetup Hload.
  destruct (journey_loop_account env goal cb (py_range 1 (max_steps + 1))
              {| self := o; trace := [] ++ opening env start_url cb |})
    as (s1 & recs & hs & evs & n & Hloop & Hs & Hh & Ht & Hn & Hrest).
  cbn [self screenshots action_history trace] in Hs, Hh, Ht.
  rewrite py_range_length in Hn, Hrest.
  replace (max_steps + 1 - 1) with max_steps in Hn, Hrest by lia.
  exists {| self := self s1; trace := trace s1 ++ closing env cb |},
    recs, hs, evs, n.
  split.
  { apply (run_journey_through_loop env start_url goal max_steps cb
             (start o) s1 Hsetup Hload). exact Hloop. }
  cbn [self trace]. split; [exact Hs|]. split; [exact Hh|].
  split; [rewrite Ht, <- app_assoc; reflexivity|].
  split; [exact Hn|exact Hrest].
Qed.

Lemma has_action_unique d a b :
  has_action d a = true -> has_action d b = true -> a = b.
Proof.
  unfold has_action. destruct (getitem d "action") as [v|]; [|discriminate].
  destruct v; cbn; try discriminate.
  intros Ha Hb. apply String.eqb_eq in Ha, Hb. congruence.
Qed.

Lemma finishes_action cb d :
  finishes cb d = true -> has_action d "finish" = true.
Proof. unfold finishes. intros H. apply andb_true_iff in H. tauto. Qed.

Lemma asked_by_finish k d e :
  has_action d "finish" = true -> asked k d e -> dispatch_step e = None.
Proof.
  intros Hf. destruct e; cbn; try reflexivity.
  - intros (_ & Hc & _).
    discriminate (has_action_unique d "finish" "click" Hf Hc).
  - intros (_ & Hc).
    discriminate (has_action_unique d "finish" "scroll" Hf Hc).
Qed.

Lemma filter_all_true {A} (p : A -> bool) (l : list A) :
  Forall (fun x => p x = true) l -> List.filter p l = l.
Proof.
  induction 1 as [|x l Hx _ IH]; cbn; [reflexivity|].
  rewrite Hx, IH. reflexivity.
Qed.

Lemma filter_nil_iff {A} (p : A -> bool) (l : list A) :
  List.filter p l = [] <-> Forall (fun x => p x = false) l.
Proof.
  induction l as [|x l IH]; cbn.
  - split; constructor.
  - destruct (p x) eqn:Hx.
    + split; [discriminate|]. intros H.
      apply Forall_cons in H as [H _]. congruence.
    + rewrite IH. split; [intros H; constructor; assumption|].
      intros H. apply Forall_cons in H as [_ H]. exact H.
Qed.

(** ** Further properties *)

(** X1. When the browser is set up and the page loads under neither
    strategy, the journey tries the "commit" load and then the default
    load, closes the browser once (also when closing raises), and returns
    a fresh empty list; no screenshot is taken, the Oracle is not called,
    and the two lists of the instance are untouched. *)
Theorem X1_load_failure_aborts env start_url goal max_steps cb o :
  setup_ok env = true -> load_ok env start_url = false ->
  run_journey env start_url goal max_steps cb (start o)
  = (Ok RetEmpty, {| self := o; trace := abort_events env start_url cb |}) /\
  close_count (abort_events env start_url cb) = 1%nat /\
  Forall quiet (abort_events env start_url cb).
Proof.
  intros Hsetup Hload.
  destruct (run_journey_abort_quiet env start_url goal max_steps cb (start o))
    as (evs & Hrun & Hq & Hev).
  { rewrite Hsetup, Hload. reflexivity. }
  rewrite (Hev Hsetup) in Hrun, Hq.
  split; [exact Hrun|]. split; [|exact Hq].
  unfold abort_events, close_count.
  destruct cb, (browser_close env); reflexivity.
Qed.

(** X1 on a page whose name does not resolve. *)
Lemma X1_load_failure_aborts_witness :
  run_journey env_unreachable "https://nowhere.invalid/" "sign up" 3 true
    (start init)
  = (Ok RetEmpty,
     {| self := init;
        trace := abort_events env_unreachable "https://nowhere.invalid/"
                   true |}) /\
  close_count (abort_events env_unreachable "https://nowhere.invalid/" true)
  = 1%nat /\
  Forall quiet (abort_events env_unreachable "https://nowhere.invalid/" true).
Proof.
  exact (X1_load_failure_aborts env_unreachable "https://nowhere.invalid/"
           "sign up" 3 true init eq_refl eq_refl).
Defined.

(** X2. In the list returned by a journey on a fresh instance the step
    indices are strictly increasing: records are in execution order and
    no index occurs twice. *)
Theorem X2_steps_strictly_increasing env start_url goal max_steps cb :
  exists r s',
    run_journey env start_url goal max_steps cb (start init) = (Ok r, s') /\
    StronglySorted Z.lt (step <$> returned_list (self s') r).
Proof.
  destruct (run_journey_post env start_url goal max_steps cb init)
    as (r & s' & recs & hs & Hrun & Hs & _ & Hsub & _).
  exists r, s'. split; [exact Hrun|].
  cbn in Hs. destruct r; cbn; try constructor.
  rewrite Hs.
  eapply StronglySorted_sublist; [exact Hsub|apply py_range_sorted].
Qed.


Lemma record_of_decision env goal h k :
  decision (record_of env goal h k)
  = decision_of env k (screenshot_name k (now_hms env k)) goal h.
Proof. reflexivity. Qed.

Lemma In_firstn {A} (x : A) n (l : list A) : In x (firstn n l) -> In x l.
Proof.
  revert l. induction n as [|n IH]; intros [|y l]; cbn; try tauto.
  intros [H | H]; [left; exact H|right; apply IH; exact H].
Qed.

Lemma steps_of_filter env n ks (recs : list StepRecord) :
  step <$> recs = List.filter (shot_ok env) (firstn n ks) ->
  Forall (fun r => In (step r) ks) recs.
Proof.
  intros E. apply Forall_forall. intros r Hr.
  assert (Hin : In (step r) (step <$> recs)).
  { apply list_elem_of_In, list_elem_of_fmap_2. exact Hr. }
  rewrite E in Hin. apply List.filter_In in Hin as [Hin _].
  eapply In_firstn. exact Hin.
Qed.

Lemma py_range_In lo hi k : In k (py_range lo hi) -> lo <= k < hi.
Proof.
  intros H. apply (proj1 (List.Forall_forall _ _) (py_range_bounds lo hi)).
  exact H.
Qed.

(** X3. Exhaustion: when the page loads, every screenshot of the steps
    [1..max_steps] succeeds and no decision makes the loop stop, the
    journey on a fresh instance takes exactly [max_steps] screenshots and
    returns exactly one record per step index, [1..max_steps] in order. *)
Theorem X3_exhaustion env start_url goal max_steps cb :
  setup_ok env = true -> load_ok env start_url = true ->
  is_ok (browser_close env) = true ->
  (forall k, 1 <= k <= max_steps -> shot_ok env k = true) ->
  (forall k h, 1 <= k <= max_steps ->
     finishes cb (decision_of env k (screenshot_name k (now_hms env k))
                    goal h) = false) ->
  exists s',
    run_journey env start_url goal max_steps cb (start init)
    = (Ok RetScreenshots, s') /\
    step <$> returned_list (self s') RetScreenshots
    = py_range 1 (max_steps + 1) /\
    count_events is_screenshot (trace s') = Z.to_nat max_steps.
Proof.
  intros Hsetup Hload Hclose Hshots Hgo.
  destruct (run_journey_account env start_url goal max_steps cb init
              Hsetup Hload)
    as (s' & recs & hs & evs & n & Hrun & Hs & _ & Ht & Hn & Hsteps & Hrec
        & Hend & Hcs & _).
  rewrite Hclose in Hrun. exists s'. split; [exact Hrun|].
  cbn in Hs. cbn [returned_list]. rewrite Hs.
  assert (Hin := steps_of_filter env n _ recs Hsteps).
  assert (Hnone : Forall (fun r => finishes cb (decision r) = false) recs).
  { apply Forall_forall. intros r Hr.
    destruct (proj1 (Forall_forall _ _) Hrec r Hr) as [h Hh].
    rewrite Hh, record_of_decision. apply Hgo.
    apply list_elem_of_In in Hr.
    pose proof (py_range_In _ _ _
                  (proj1 (List.Forall_forall _ _) Hin r Hr)). lia. }
  assert (Hall : n = Z.to_nat max_steps).
  { destruct Hend as [[E _] | (front & r & E & Hr & _)]; [exact E|].
    exfalso. rewrite E in Hnone. apply Forall_app in Hnone as [_ Hl].
    apply Forall_cons in Hl as [Hl _]. congruence. }
  split.
  - rewrite Hsteps, Hall.
    rewrite List.firstn_all2 by (rewrite py_range_length; lia).
    apply filter_all_true. apply List.Forall_forall. intros k Hk.
    apply Hshots. apply py_range_In in Hk. lia.
  - rewrite Ht, !count_events_app, Hcs, Hall.
    rewrite (count_quiet is_screenshot _ (fun e H => proj1 H)
               (opening_is_quiet env start_url cb)).
    rewrite (count_quiet is_screenshot _ (fun e H => proj1 H)
               (closing_is_quiet env cb)).
    lia.
Qed.

(** X3 on a two-step journey in which the model always scrolls and every
    scroll raises. *)
Lemma X3_exhaustion_witness :
  exists s',
    run_journey env_scroll_raises "https://example.com/" "sign up" 2 true
      (start init) = (Ok RetScreenshots, s') /\
    step <$> returned_list (self s') RetScreenshots = py_range 1 (2 + 1) /\
    count_events is_screenshot (trace s') = Z.to_nat 2.
Proof.
  apply (X3_exhaustion env_scroll_raises "https://example.com/" "sign up"
           2 true);
    try reflexivity; intros; reflexivity.
Defined.

(** X4. When the screenshot of step 1 succeeds and its decision makes the
    loop stop (the Oracle's "finish", or the default put in place of a
    failed Oracle call), the journey takes one screenshot, stores exactly
    one record, dispatches no click and no scroll, and leaves the action
    history as it was. *)
Theorem X4_finish_at_first_step env start_url goal max_steps cb o :
  setup_ok env = true -> load_ok env start_url = true ->
  1 <= max_steps ->
  shot_ok env 1 = true ->
  finishes cb (decision (record_of env goal (action_history o) 1)) = true ->
  exists s',
    run_journey env start_url goal max_steps cb (start o)
    = (Ok (if is_ok (browser_close env) then RetScreenshots else RetEmpty),
       s') /\
    screenshots (self s')
    = (screenshots o ++ [record_of env goal (action_history o) 1])%list /\
    action_history (self s') = action_history o /\
    count_events is_screenshot (trace s') = 1%nat /\
    Forall (fun e => dispatch_step e = None) (trace s').
Proof.
  intros Hsetup Hload Hmax Hshot Hfin.
  set (s0 := {| self := o; trace := [] ++ opening env start_url cb |}).
  destruct (journey_step_account env goal cb 1 s0)
    as (out & s1 & hs1 & evs1 & Hrun & Hh1 & Ht1 & Hc1 & _ & Hcase).
  destruct Hcase as [(Hno & _) | (_ & Hs1 & _ & _ & _ & Hask & Hhist & Hout)];
    [congruence|].
  cbn [s0 self action_history screenshots trace] in Hh1, Ht1, Hs1, Hask,
    Hhist, Hout.
  pose proof (finishes_action cb _ Hfin) as Hact.
  destruct Hout as [[-> _] | [_ Hout]]; [|congruence].
  assert (Hhs : hs1 = []).
  { destruct Hhist as [E | (l & _ & _ & Hc)]; [exact E|].
    discriminate (has_action_unique _ "finish" "click" Hact Hc). }
  assert (Hloop : for_each (py_range 1 (max_steps + 1))
                    (journey_step env goal cb) s0 = (Normal tt, s1)).
  { rewrite py_range_cons by lia. rewrite for_each_cons, Hrun. reflexivity. }
  eexists. split.
  { apply (run_journey_through_loop env start_url goal max_steps cb
             (start o) s1 Hsetup Hload). exact Hloop. }
  cbn [self trace]. split; [exact Hs1|].
  split; [rewrite Hh1, Hhs, app_nil_r; reflexivity|].
  rewrite Ht1, app_nil_l. split.
  - rewrite !count_events_app, Hc1.
    rewrite (count_quiet is_screenshot _ (fun e H => proj1 H)
               (opening_is_quiet env start_url cb)).
    rewrite (count_quiet is_screenshot _ (fun e H => proj1 H)
               (closing_is_quiet env cb)).
    reflexivity.
  - apply Forall_app; split; [apply Forall_app; split|].
    + eapply Forall_impl; [apply opening_is_quiet|].
      intros e He. apply He.
    + eapply Forall_impl; [exact Hask|].
      intros e He. eapply asked_by_finish; eassumption.
    + eapply Forall_impl; [apply closing_is_quiet|].
      intros e He. apply He.
Qed.

(** X4 on a journey during which the model cannot be reached: the default
    decision ends it after one record. *)
Lemma X4_finish_at_first_step_witness :
  exists s',
    run_journey env_oracle_down "https://example.com/" "sign up" 5 true
      (start init)
    = (Ok (if is_ok (browser_close env_oracle_down)
           then RetScreenshots else RetEmpty), s') /\
    screenshots (self s')
    = (screenshots init
       ++ [record_of env_oracle_down "sign up" (action_history init) 1])%list /\
    action_history (self s') = action_history init /\
    count_events is_screenshot (trace s') = 1%nat /\
    Forall (fun e => dispatch_step e = None) (trace s').
Proof.
  apply (X4_finish_at_first_step env_oracle_down "https://example.com/"
           "sign up" 5 true init); try reflexivity. lia.
Defined.

(** A loaded journey returns no record exactly when no screenshot
    succeeds. *)
Lemma empty_result_iff env start_url goal max_steps cb :
  setup_ok env = true -> load_ok env start_url = true ->
  is_ok (browser_close env) = true ->
  exists s',
    run_journey env start_url goal max_steps cb (start init)
    = (Ok RetScreenshots, s') /\
    (returned_list (self s') RetScreenshots = [] <->
     Forall (fun k => shot_ok env k = false) (py_range 1 (max_steps + 1))).
Proof.
  intros Hsetup Hload Hclose.
  destruct (run_journey_account env start_url goal max_steps cb init
              Hsetup Hload)
    as (s' & recs & hs & evs & n & Hrun & Hs & _ & _ & Hn & Hsteps & _
        & Hend & _).
  rewrite Hclose in Hrun. exists s'. split; [exact Hrun|].
  cbn in Hs. cbn [returned_list]. rewrite Hs. split.
  - intros E. rewrite E in Hsteps, Hend.
    destruct Hend as [[Hall _] | (front & r & Hr & _)];
      [|destruct front; discriminate Hr].
    rewrite Hall in Hsteps.
    rewrite List.firstn_all2 in Hsteps by (rewrite py_range_length; lia).
    apply filter_nil_iff. symmetry. exact Hsteps.
  - intros Hall.
    assert (Hnil : List.filter (shot_ok env)
                     (firstn n (py_range 1 (max_steps + 1))) = []).
    { apply filter_nil_iff. apply List.Forall_forall. intros k Hk.
      apply (proj1 (List.Forall_forall _ _) Hall). eapply In_firstn.
      exact Hk. }
    rewrite Hnil in Hsteps. destruct recs; [reflexivity|discriminate Hsteps].
Qed.

(** X5. A journey on a fresh instance that loads the page and closes the
    browser returns an empty list exactly when the screenshot of every
    step [1..max_steps] fails (in particular when [max_steps <= 0]): then
    the caller cannot tell it from an aborted journey. *)
Theorem X5_empty_result env start_url goal max_steps cb :
  setup_ok env = true -> load_ok env start_url = true ->
  is_ok (browser_close env) = true ->
  exists s',
    run_journey env start_url goal max_steps cb (start init)
    = (Ok RetScreenshots, s') /\
    (returned_list (self s') RetScreenshots = [] <->
     Forall (fun k => shot_ok env k = false) (py_range 1 (max_steps + 1))).
Proof. apply empty_result_iff. Qed.

(** X5 on a journey all of whose screenshots time out. *)
Lemma X5_empty_result_witness :
  exists s',
    run_journey env_no_shots "https://example.com/" "sign up" 3 true
      (start init) = (Ok RetScreenshots, s') /\
    (returned_list (self s') RetScreenshots = [] <->
     Forall (fun k => shot_ok env_no_shots k = false) (py_range 1 (3 + 1))).
Proof.
  exact (X5_empty_result env_no_shots "https://example.com/" "sign up" 3
           true eq_refl eq_refl eq_refl).
Defined.

(** Every run, from any state of the instance, with its accounts. *)
Lemma run_journey_accounts env start_url goal max_steps cb o :
  exists r s' (recs : list StepRecord) (hs : list HistoryEntry),
    run_journey env start_url goal max_steps cb (start o) = (Ok r, s') /\
    screenshots (self s') = (screenshots o ++ recs)%list /\
    action_history (self s') = (action_history o ++ hs)%list /\
    count_events is_decide (trace s') = length recs /\
    count_events is_score (trace s') = length recs /\
    count_events is_append (trace s') = length recs /\
    (length recs <= count_events is_screenshot (trace s'))%nat /\
    (count_events is_screenshot (trace s') <= Z.to_nat max_steps)%nat /\
    (length hs <= length recs)%nat /\
    Forall (click_entry recs) hs /\
    Forall (justified recs) (trace s').
Proof.
  destruct (setup_ok env && load_ok env start_url) eqn:Hgo.
  - apply andb_true_iff in Hgo as [Hsetup Hload].
    destruct (run_journey_account env start_url goal max_steps cb o
                Hsetup Hload)
      as (s' & recs & hs & evs & n & Hrun & Hs & Hh & Ht & Hn & Hsteps & _
          & _ & Hcs & Hcd & Hco & Hca & Hlen & Hent & Hjust).
    eexists. exists s', recs, hs.
    split; [exact Hrun|]. split; [exact Hs|]. split; [exact Hh|].
    pose proof (opening_is_quiet env start_url cb) as Hop.
    pose proof (closing_is_quiet env cb) as Hcl.
    rewrite Ht, !count_events_app, Hcs, Hcd, Hco, Hca.
    rewrite !(count_quiet is_decide _ (fun e H => proj1 (proj2 H))) by
      assumption.
    rewrite !(count_quiet is_score _
                (fun e H => proj1 (proj2 (proj2 H)))) by assumption.
    rewrite !(count_quiet is_append _
                (fun e H => proj1 (proj2 (proj2 (proj2 H))))) by assumption.
    rewrite !(count_quiet is_screenshot _ (fun e H => proj1 H)) by
      assumption.
    assert (Hle : (length recs <= n)%nat).
    { rewrite <- (length_fmap step recs), Hsteps.
      etransitivity; [apply List.filter_length_le|].
      rewrite List.length_firstn. lia. }
    repeat split; try lia; auto.
    apply Forall_app; split; [|apply Forall_app; split].
    + eapply Forall_impl; [exact Hop|]. apply quiet_justified.
    + exact Hjust.
    + eapply Forall_impl; [exact Hcl|]. apply quiet_justified.
  - destruct (run_journey_abort_quiet env start_url goal max_steps cb
                (start o) Hgo) as (evs & Hrun & Hq & _).
    exists RetEmpty. eexists. exists [], [].
    split; [exact Hrun|]. cbn [self trace start]. rewrite !app_nil_r.
    rewrite app_nil_l.
    rewrite (count_quiet is_decide _ (fun e H => proj1 (proj2 H)) Hq).
    rewrite (count_quiet is_score _
               (fun e H => proj1 (proj2 (proj2 H))) Hq).
    rewrite (count_quiet is_append _
               (fun e H => proj1 (proj2 (proj2 (proj2 H)))) Hq).
    rewrite (count_quiet is_screenshot _ (fun e H => proj1 H) Hq).
    repeat split; try (cbn; lia); try constructor.
    eapply Forall_impl; [exact Hq|]. apply quiet_justified.
Qed.

(** X6. The Oracle is consulted once for a decision and once for a score
    per record stored by the run, and never for a step whose screenshot
    failed; a run takes at most [max_steps] screenshots, so it makes at
    most [2 * max_steps] Oracle calls. *)
Theorem X6_oracle_calls env start_url goal max_steps cb o :
  exists r s' (recs : list StepRecord),
    run_journey env start_url goal max_steps cb (start o) = (Ok r, s') /\
    screenshots (self s') = (screenshots o ++ recs)%list /\
    count_events is_decide (trace s') = length recs /\
    count_events is_score (trace s') = length recs /\
    (length recs <= count_events is_screenshot (trace s'))%nat /\
    (count_events is_screenshot (trace s') <= Z.to_nat max_steps)%nat.
Proof.
  destruct (run_journey_accounts env start_url goal max_steps cb o)
    as (r & s' & recs & hs & Hrun & Hs & _ & Hd & Ho & _ & Hle & Hmax & _).
  exists r, s', recs. repeat split; assumption.
Qed.

(** X7. A run never clicks and never scrolls on its own: every click
    attempt in its trace belongs to a step whose stored decision has
    action "click", on one of the four locators built from that
    decision's label, and every scroll to a step whose stored decision
    has action "scroll". *)
Theorem X7_dispatch_only_as_decided env start_url goal max_steps cb o :
  exists r s' (recs : list StepRecord),
    run_journey env start_url goal max_steps cb (start o) = (Ok r, s') /\
    screenshots (self s') = (screenshots o ++ recs)%list /\
    Forall
      (fun e =>
         match e with
         | EvClick k loc =>
             exists rec l,
               In rec recs /\ step rec = k /\
               has_action (decision rec) "click" = true /\
               getitem (decision rec) "label" = Ok l /\
               In loc (click_strategies l)
         | EvScroll k =>
             exists rec,
               In rec recs /\ step rec = k /\
               has_action (decision rec) "scroll" = true
         | _ => True
         end)
      (trace s').
Proof.
  destruct (run_journey_accounts env start_url goal max_steps cb o)
    as (r & s' & recs & hs & Hrun & Hs & _ & _ & _ & _ & _ & _ & _ & _
        & Hjust).
  exists r, s', recs. split; [exact Hrun|]. split; [exact Hs|].
  eapply Forall_impl; [exact Hjust|].
  intros e. unfold justified. destruct e; cbn; try tauto.
  - intros (rec & Hin & Hk & _ & Ha & l & Hl & Hloc).
    exists rec, l. repeat split; assumption.
  - intros (rec & Hin & Hk & _ & Ha). exists rec. repeat split; assumption.
Qed.

(** X8. The action history only records clicks that were decided: every
    entry a run appends is the label of a stored decision whose action is
    "click", and a run appends at most one entry per record. *)
Theorem X8_history_of_decided_clicks env start_url goal max_steps cb o :
  exists r s' (recs : list StepRecord) (hs : list HistoryEntry),
    run_journey env start_url goal max_steps cb (start o) = (Ok r, s') /\
    screenshots (self s') = (screenshots o ++ recs)%list /\
    action_history (self s') = (action_history o ++ hs)%list /\
    (length hs <= length recs)%nat /\
    Forall
      (fun h =>
         exists rec l,
           In rec recs /\ has_action (decision rec) "click" = true /\
           getitem (decision rec) "label" = Ok l /\ h = Clicked l)
      hs.
Proof.
  destruct (run_journey_accounts env start_url goal max_steps cb o)
    as (r & s' & recs & hs & Hrun & Hs & Hh & _ & _ & _ & _ & _ & Hlen
        & Hent & _).
  exists r, s', recs, hs. repeat split; assumption.
Qed.

(** X9. With [max_steps <= 0] a journey that loads the page runs no step:
    it opens, closes the browser, and leaves the instance as it was; on a
    fresh instance it returns the empty list object. *)
Theorem X9_no_steps env start_url goal max_steps cb o :
  max_steps <= 0 ->
  setup_ok env = true -> load_ok env start_url = true ->
  run_journey env start_url goal max_steps cb (start o)
  = (Ok (if is_ok (browser_close env) then RetScreenshots else RetEmpty),
     {| self := o;
        trace := opening env start_url cb ++ closing env cb |}).
Proof.
  intros Hmax Hsetup Hload.
  rewrite (run_journey_through_loop env start_url goal max_steps cb
             (start o)
             {| self := o; trace := [] ++ opening env start_url cb |}
             Hsetup Hload).
  - reflexivity.
  - rewrite py_range_empty by lia. apply for_each_nil.
Qed.

(** X9 with [max_steps = 0]. *)
Lemma X9_no_steps_witness :
  run_journey env_scroll "https://example.com/" "sign up" 0 true (start init)
  = (Ok (if is_ok (browser_close env_scroll)
         then RetScreenshots else RetEmpty),
     {| self := init;
        trace := opening env_scroll "https://example.com/" true
                 ++ closing env_scroll true |}).
Proof.
  apply (X9_no_steps env_scroll "https://example.com/" "sign up" 0 true
           init); [lia|reflexivity|reflexivity].
Defined.

(** X10. A scroll is best effort: for a decision whose action is "scroll"
    the page is asked to scroll once, and whether that succeeds or raises
    the step ends normally with both lists unchanged and nothing reported
    to the observer. *)
Theorem X10_scroll_best_effort env cb k d s :
  getitem d "action" = Ok (JStr "scroll") ->
  execute_action env cb k d s
  = (Normal tt, {| self := self s; trace := trace s ++ [EvScroll k] |}).
Proof.
  intros Ha. run_monad. rewrite Ha. cbn.
  destruct (page_evaluate_scroll env k) as [[]|e]; reflexivity.
Qed.

(** X10 on a page whose scroll raises. *)
Lemma X10_scroll_best_effort_witness :
  execute_action env_scroll_raises true 1
    (JObj [("action", JStr "scroll"); ("label", JStr "page")])
    (start init)
  = (Normal tt, {| self := self (start init);
                   trace := trace (start init) ++ [EvScroll 1] |}).
Proof.
  exact (X10_scroll_best_effort env_scroll_raises true 1
           (JObj [("action", JStr "scroll"); ("label", JStr "page")])
           (start init) eq_refl).
Defined.

Lemma last3_of_three (older : list HistoryEntry) a b c :
  last3 (older ++ [a; b; c]) = [a; b; c].
Proof.
  unfold last3. rewrite List.length_app. cbn [length].
  replace (length older + 3 - 3)%nat with (length older) by lia.
  rewrite List.skipn_app, List.skipn_all, Nat.sub_diag. reflexivity.
Qed.

(** X11. The decision prompt carries only the last three entries of the
    action history (all of them when there are fewer): with at least
    three entries, [get_ai_decision] answers as it would without the
    older ones. *)
Theorem X11_prompt_sees_last_three env t p goal older a b c k history :
  get_ai_decision env t p goal (older ++ [a; b; c]) k
  = get_ai_decision env t p goal [a; b; c] k /\
  length (last3 history) = Nat.min 3 (length history) /\
  history = (firstn (length history - 3) history ++ last3 history)%list.
Proof.
  split; [|split].
  - unfold get_ai_decision, decide_call.
    rewrite last3_of_three. reflexivity.
  - unfold last3. rewrite List.length_skipn. lia.
  - unfold last3. symmetry. apply List.firstn_skipn.
Qed.

(** *** The dashboard *)

Lemma map_result_app {A B} (f : A -> result B) (l1 l2 : list A) :
  map_result f (l1 ++ l2)
  = bind_result (map_result f l1) (fun xs =>
    bind_result (map_result f l2) (fun ys => Ok (xs ++ ys)%list)).
Proof.
  induction l1 as [|x l1 IH]; cbn.
  - destruct (map_result f l2); reflexivity.
  - destruct (f x) as [y|e]; cbn; [|reflexivity].
    rewrite IH. destruct (map_result f l1) as [xs|e]; cbn; [|reflexivity].
    destruct (map_result f l2); reflexivity.
Qed.

Lemma map_result_length {A B} (f : A -> result B) (l : list A) ys :
  map_result f l = Ok ys -> length ys = length l.
Proof.
  revert ys. induction l as [|x l IH]; cbn; intros ys H.
  - inversion H. reflexivity.
  - destruct (f x) as [y|e]; cbn in H; [|discriminate].
    destruct (map_result f l) as [zs|e]; cbn in H; [|discriminate].
    inversion H. cbn. rewrite (IH zs eq_refl). reflexivity.
Qed.

Lemma py_iter_length v n items :
  py_len v = Ok n -> py_iter v = Ok items -> length items = n.
Proof.
  destruct v; cbn; try discriminate; intros Hn Hi;
    inversion Hn; inversion Hi; subst.
  - rewrite List.length_map. clear. induction s as [|c s IH]; cbn; congruence.
  - reflexivity.
  - apply List.length_map.
Qed.

Lemma high_of_le_len r n h :
  bind_result (issues_of r) py_len = Ok n -> high_of r = Ok h ->
  (h <= n)%nat.
Proof.
  unfold high_of. destruct (issues_of r) as [x|e]; cbn; [|discriminate].
  intros Hn. destruct (py_iter x) as [items|e] eqn:Hi; cbn; [|discriminate].
  destruct (map_result is_high items) as [flags|e] eqn:Hf; cbn;
    [|discriminate].
  intros Hh. inversion Hh. subst h.
  rewrite <- (py_iter_length x n items Hn Hi).
  rewrite <- (map_result_length is_high items flags Hf).
  apply List.filter_length_le.
Qed.

Lemma sums_le {A} (f g : A -> result nat) (l : list A) ns hs :
  (forall x n h, f x = Ok n -> g x = Ok h -> (h <= n)%nat) ->
  map_result f l = Ok ns -> map_result g l = Ok hs ->
  (list_sum hs <= list_sum ns)%nat.
Proof.
  intros Hle. revert ns hs. induction l as [|x l IH]; cbn; intros ns hs Hn Hh.
  - inversion Hn. inversion Hh. reflexivity.
  - destruct (f x) as [n|] eqn:Ef; cbn in Hn; [|discriminate].
    destruct (g x) as [h|] eqn:Eg; cbn in Hh; [|discriminate].
    destruct (map_result f l) as [ns'|]; cbn in Hn; [|discriminate].
    destruct (map_result g l) as [hs'|]; cbn in Hh; [|discriminate].
    inversion Hn. inversion Hh. subst ns hs.
    change (h + list_sum hs' <= n + list_sum ns')%nat.
    pose proof (Hle x n h Ef Eg). pose proof (IH ns' hs' eq_refl eq_refl).
    lia.
Qed.

(** X13. On the dashboard the "High Priority" count never exceeds the
    "Issues Found" count: whenever both metrics can be computed from the
    records, [high_issues <= total_issues]. *)
Theorem X13_high_issues_le_total results total high :
  total_issues results = Ok total ->
  high_issues results = Ok high ->
  (high <= total)%nat.
Proof.
  unfold total_issues, high_issues. intros Ht Hh.
  destruct (map_result (fun r => bind_result (issues_of r) py_len) results)
    as [ns|] eqn:En; cbn in Ht; [|discriminate].
  destruct (map_result high_of results) as [hs|] eqn:Eh; cbn in Hh;
    [|discriminate].
  inversion Ht. inversion Hh. subst.
  eapply sums_le; [|exact En|exact Eh].
  intros r n h. apply high_of_le_len.
Qed.

(** X13 on one record with a high and a low issue. *)
Lemma X13_high_issues_le_total_witness : (1 <= 2)%nat.
Proof.
  exact (X13_high_issues_le_total [record_with 1 ux_two_issues] 2 1
           eq_refl eq_refl).
Defined.

Lemma sum_result_app {A} (f : A -> result nat) (a b : list A) :
  bind_result (map_result f (a ++ b)) (fun ns => Ok (list_sum ns))
  = bind_result (bind_result (map_result f a) (fun ns => Ok (list_sum ns)))
      (fun x =>
       bind_result
         (bind_result (map_result f b) (fun ns => Ok (list_sum ns)))
         (fun y => Ok (x + y)%nat)).
Proof.
  rewrite map_result_app.
  destruct (map_result f a) as [xs|e]; cbn [bind_result]; [|reflexivity].
  destruct (map_result f b) as [ys|e]; cbn [bind_result]; [|reflexivity].
  rewrite List.list_sum_app. reflexivity.
Qed.

Lemma all_suggestions_app (a b : list StepRecord) :
  all_suggestions (a ++ b)
  = bind_result (all_suggestions a) (fun xs =>
    bind_result (all_suggestions b) (fun ys => Ok (xs ++ ys)%list)).
Proof.
  induction a as [|r a IH]; cbn.
  - destruct (all_suggestions b); reflexivity.
  - destruct (py_get (ux_analysis r) "actionable_suggestions" (JArr []))
      as [x|e]; cbn; [|reflexivity].
    destruct (py_iter x) as [items|e]; cbn; [|reflexivity].
    rewrite IH. destruct (all_suggestions a) as [xs|e]; cbn; [|reflexivity].
    destruct (all_suggestions b) as [ys|e]; cbn; [|reflexivity].
    rewrite app_assoc. reflexivity.
Qed.

(** X14. The dashboard metrics add up over concatenation: for the records
    of two journeys one after the other (as a reused instance returns
    them), the issue counts are the sums of the counts of each part and
    the suggestions are those of the first part followed by those of the
    second; an error in the first part is the one raised. *)
Theorem X14_metrics_add_up (a b : list StepRecord) :
  total_issues (a ++ b)
  = bind_result (total_issues a) (fun x =>
    bind_result (total_issues b) (fun y => Ok (x + y)%nat)) /\
  high_issues (a ++ b)
  = bind_result (high_issues a) (fun x =>
    bind_result (high_issues b) (fun y => Ok (x + y)%nat)) /\
  all_suggestions (a ++ b)
  = bind_result (all_suggestions a) (fun xs =>
    bind_result (all_suggestions b) (fun ys => Ok (xs ++ ys)%list)).
Proof.
  split; [apply sum_result_app|]. split; [apply sum_result_app|].
  apply all_suggestions_app.
Qed.

(** X15. A record whose analysis is the default put in place of a failed
    [score()] call adds nothing to the dashboard: appended to any records,
    it leaves both issue counts and the list of suggestions as they
    were. *)
Theorem X15_degraded_record_adds_nothing results r e :
  ux_analysis r = ux_default e ->
  total_issues (results ++ [r]) = total_issues results /\
  high_issues (results ++ [r]) = high_issues results /\
  all_suggestions (results ++ [r]) = all_suggestions results.
Proof.
  intros Hux.
  assert (Ht : total_issues [r] = Ok 0%nat)
    by (unfold total_issues, issues_of; cbn; rewrite Hux; reflexivity).
  assert (Hh : high_issues [r] = Ok 0%nat)
    by (unfold high_issues, high_of, issues_of; cbn; rewrite Hux;
        reflexivity).
  assert (Hs : all_suggestions [r] = Ok [])
    by (cbn; rewrite Hux; reflexivity).
  unfold total_issues, high_issues in *.
  rewrite !sum_result_app, all_suggestions_app, Ht, Hh, Hs.
  split; [|split].
  - destruct (map_result _ results) as [ns|]; cbn; [|reflexivity].
    rewrite Nat.add_0_r. reflexivity.
  - destruct (map_result high_of results) as [ns|]; cbn; [|reflexivity].
    rewrite Nat.add_0_r. reflexivity.
  - destruct (all_suggestions results) as [xs|]; cbn; [|reflexivity].
    rewrite app_nil_r. reflexivity.
Qed.

(** X15 on one analysed record followed by a degraded one. *)
Lemma X15_degraded_record_adds_nothing_witness :
  total_issues ([record_with 1 ux_two_issues]
                ++ [record_with 2 (ux_default (Exn "503 UNAVAILABLE"))])
  = total_issues [record_with 1 ux_two_issues] /\
  high_issues ([record_with 1 ux_two_issues]
               ++ [record_with 2 (ux_default (Exn "503 UNAVAILABLE"))])
  = high_issues [record_with 1 ux_two_issues] /\
  all_suggestions ([record_with 1 ux_two_issues]
                   ++ [record_with 2 (ux_default (Exn "503 UNAVAILABLE"))])
  = all_suggestions [record_with 1 ux_two_issues].
Proof.
  exact (X15_degraded_record_adds_nothing [record_with 1 ux_two_issues]
           (record_with 2 (ux_default (Exn "503 UNAVAILABLE")))
           (Exn "503 UNAVAILABLE") eq_refl).
Defined.

Lemma render_from_spec idx sugs rows :
  render_from idx sugs = Ok rows ->
  length rows = length sugs /\
  number <$> rows = seq idx (length rows) /\
  Forall2
    (fun row sug =>
       py_get sug "suggestion" (JStr "N/A") = Ok (suggestion row) /\
       py_get sug "implementation" (JStr "N/A") = Ok (implementation row) /\
       py_get sug "expected_impact" (JStr "N/A") = Ok (expected_impact row))
    rows sugs.
Proof.
  revert idx rows. induction sugs as [|sug sugs IH]; cbn; intros idx rows H.
  - inversion H. repeat split; constructor.
  - unfold render_suggestion in H.
    destruct (py_get sug "suggestion" (JStr "N/A")) as [a|] eqn:Ea;
      cbn in H; [|discriminate].
    destruct (py_get sug "implementation" (JStr "N/A")) as [b|] eqn:Eb;
      cbn in H; [|discriminate].
    destruct (py_get sug "expected_impact" (JStr "N/A")) as [c|] eqn:Ec;
      cbn in H; [|discriminate].
    destruct (render_from (S idx) sugs) as [rows'|] eqn:Er; cbn in H;
      [|discriminate].
    inversion H. subst rows.
    destruct (IH (S idx) rows' Er) as (Hlen & Hnum & Hall).
    split; [cbn [length]; rewrite Hlen; reflexivity|]. split.
    + rewrite fmap_cons. cbn [length seq number]. rewrite Hnum.
      reflexivity.
    + constructor; [cbn; repeat split; assumption|exact Hall].
Qed.

(** X16. "Key Recommendations" shows at most five boxes: the first five of
    all suggestions of the journey in record order (all of them when
    there are fewer), numbered from 1, each with the fields of its
    suggestion. *)
Theorem X16_top_recommendations results shown :
  top_recommendations results = Ok shown ->
  exists sugs,
    all_suggestions results = Ok sugs /\
    length shown = Nat.min 5 (length sugs) /\
    number <$> shown = seq 1 (length shown) /\
    Forall2
      (fun row sug =>
         py_get sug "suggestion" (JStr "N/A") = Ok (suggestion row) /\
         py_get sug "implementation" (JStr "N/A") = Ok (implementation row) /\
         py_get sug "expected_impact" (JStr "N/A")
         = Ok (expected_impact row))
      shown (firstn 5 sugs).
Proof.
  unfold top_recommendations. intros H.
  destruct (all_suggestions results) as [sugs|]; cbn [bind_result] in H;
    [|discriminate].
  exists sugs. split; [reflexivity|].
  destruct (render_from_spec 1 (firstn 5 sugs) shown H) as (Hlen & Hnum & Hall).
  split; [rewrite Hlen, List.length_firstn; reflexivity|].
  split; assumption.
Qed.

(** X16 on one record with one suggestion. *)
Lemma X16_top_recommendations_witness :
  exists sugs,
    all_suggestions [record_with 1 ux_two_issues] = Ok sugs /\
    length [ {| number := 1; suggestion := JStr "add labels";
                implementation := JStr "label element";
                expected_impact := JStr "N/A" |} ]
    = Nat.min 5 (length sugs) /\
    number <$> [ {| number := 1; suggestion := JStr "add labels";
                    implementation := JStr "label element";
                    expected_impact := JStr "N/A" |} ]
    = seq 1 (length [ {| number := 1; suggestion := JStr "add labels";
                         implementation := JStr "label element";
                         expected_impact := JStr "N/A" |} ]) /\
    Forall2
      (fun row sug =>
         py_get sug "suggestion" (JStr "N/A") = Ok (suggestion row) /\
         py_get sug "implementation" (JStr "N/A") = Ok (implementation row) /\
         py_get sug "expected_impact" (JStr "N/A")
         = Ok (expected_impact row))
      [ {| number := 1; suggestion := JStr "add labels";
           implementation := JStr "label element";
           expected_impact := JStr "N/A" |} ]
      (firstn 5 sugs).
Proof.
  exact (X16_top_recommendations [record_with 1 ux_two_issues] _ eq_refl).
Defined.



Lemma substring_http (u : string) :
  substring 0 4 u = "http" <-> exists rest, u = "http" ++ rest.
Proof.
  split.
  - destruct u as [|a [|b [|c [|d rest]]]]; cbn; try discriminate.
    intros H. injection H as -> -> -> -> _. exists rest. reflexivity.
  - intros [rest ->]. cbn. destruct rest; reflexivity.
Qed.

(** X18. The URL check lets through exactly the strings that begin with
    "http": the emptiness test never decides on its own, and nothing
    after the fourth character is looked at. *)
Theorem X18_url_check (target_url : string) :
  url_rejected target_url = false <->
  exists rest, target_url = "http" ++ rest.
Proof.
  unfold url_rejected. rewrite <- substring_http.
  change 4%nat with (String.length "http").
  rewrite <- prefix_correct.
  destruct (String.prefix "http" target_url) eqn:Hp; cbn.
  - rewrite orb_false_r. split; [reflexivity|]. intros _.
    destruct target_url; [discriminate Hp|reflexivity].
  - rewrite orb_true_r. split; discriminate.
Qed.
